(** * services/referral_verification.py: [verify_referral]

    A shallow embedding of [verify_referral] and of the parts of the Python
    runtime it calls ([str.__format__], f-string evaluation, [json.dumps]
    with [indent=2], [json.loads], item assignment on a fresh object, the
    chat-completion request and the wall clock), followed by the properties
    of the function.

    Conventions.
    - A Python [str] is modelled by the byte string of its UTF-8 encoding
      (lone surrogates are encoded like any other code point).
    - Every error a step can raise derives from [Exception]; an error is a
      class name and the text [str(e)] yields.
    - The interpreter's objects live in a heap of cells; [user_data] and the
      value returned are references into it. *)

From Stdlib Require Import ZArith QArith Qabs List Bool Ascii String Lia.
From Stdlib Require Import DecimalString DecimalPos DecimalZ.
Import ListNotations.

Set Warnings "-register-all".
Open Scope string_scope.
Open Scope Z_scope.

(** ** Strings *)

Module Str.

Definition dq : string := String (ascii_of_nat 34) EmptyString.
Definition nl : string := String (ascii_of_nat 10) EmptyString.

(** [quoted s] is [s] between double quotes. *)
Definition quoted (s : string) : string := dq ++ s ++ dq.

Definition code (c : ascii) : Z := Z.of_N (N_of_ascii c).
Definition chr (z : Z) : ascii := ascii_of_N (Z.to_N z).

Definition mem (c : ascii) (set : string) : bool :=
  existsb (Ascii.eqb c) (list_ascii_of_string set).

Fixpoint repeat (s : string) (n : nat) : string :=
  match n with
  | O => ""
  | S n' => s ++ repeat s n'
  end.

Fixpoint join (sep : string) (l : list string) : string :=
  match l with
  | [] => ""
  | [x] => x
  | x :: rest => x ++ sep ++ join sep rest
  end.

(** [t] occurs in [s]. *)
Definition contains (s t : string) : Prop := exists a b, s = a ++ t ++ b.

(** UTF-8: the number of bytes of the code point that starts at byte [c]. *)
Definition utf8_width (c : ascii) : nat :=
  let n := code c in
  if n <? 192 then 1%nat
  else if n <? 224 then 2%nat
  else if n <? 240 then 3%nat
  else 4%nat.

Fixpoint take (n : nat) (s : string) : string :=
  match n, s with
  | S n', String c r => String c (take n' r)
  | _, _ => ""
  end.

Fixpoint drop (n : nat) (s : string) : string :=
  match n, s with
  | S n', String _ r => drop n' r
  | _, _ => s
  end.

(** The first code point of [s] (as its bytes) and the rest. *)
Definition cp_uncons (s : string) : option (string * string) :=
  match s with
  | "" => None
  | String c _ => Some (take (utf8_width c) s, drop (utf8_width c) s)
  end.

Definition is_continuation (c : ascii) : bool :=
  (128 <=? code c) && (code c <? 192).

(** [len(s)]: the number of code points. *)
Fixpoint cp_len (s : string) : Z :=
  match s with
  | "" => 0
  | String c r => (if is_continuation c then 0 else 1) + cp_len r
  end.

(** [s[:n]] on code points. *)
Fixpoint cp_take (fuel : nat) (n : Z) (s : string) : string :=
  match fuel with
  | O => ""
  | S fuel' =>
      if n <=? 0 then ""
      else match cp_uncons s with
           | None => ""
           | Some (c, r) => c ++ cp_take fuel' (n - 1) r
           end
  end.

(** The code point encoded by the bytes [b]. *)
Definition utf8_decode (b : string) : Z :=
  match list_ascii_of_string b with
  | [a] => code a
  | [a; b1] => (code a mod 32) * 64 + code b1 mod 64
  | [a; b1; b2] => ((code a mod 16) * 64 + code b1 mod 64) * 64 + code b2 mod 64
  | [a; b1; b2; b3] =>
      (((code a mod 8) * 64 + code b1 mod 64) * 64 + code b2 mod 64) * 64
      + code b3 mod 64
  | _ => 0
  end.

Definition utf8_encode (cp : Z) : string :=
  if cp <? 128 then String (chr cp) ""
  else if cp <? 2048 then
    String (chr (192 + cp / 64)) (String (chr (128 + cp mod 64)) "")
  else if cp <? 65536 then
    String (chr (224 + cp / 4096))
      (String (chr (128 + (cp / 64) mod 64)) (String (chr (128 + cp mod 64)) ""))
  else
    String (chr (240 + cp / 262144))
      (String (chr (128 + (cp / 4096) mod 64))
         (String (chr (128 + (cp / 64) mod 64))
            (String (chr (128 + cp mod 64)) ""))).

(** [str(n)] for a Python [int]. *)
Definition of_int (z : Z) : string := NilZero.string_of_int (Z.to_int z).

(** [int(s)] for a plain decimal numeral. *)
Definition to_int (s : string) : option Z :=
  option_map Z.of_int (NilZero.int_of_string s).

Definition is_digit (c : ascii) : bool := (48 <=? code c) && (code c <=? 57).

(** A numeric string: decimal digits, at least one, after an optional sign. *)
Definition all_digits (s : string) : bool :=
  match s with
  | "" => false
  | _ => forallb is_digit (list_ascii_of_string s)
  end.

Definition numeric (s : string) : bool :=
  match s with
  | String c r => if Ascii.eqb c "-" then all_digits r else all_digits s
  | "" => false
  end.

End Str.

(** ** Errors *)

(** An exception object: its class and the text of [str(e)]. *)
Record exn : Type := mkExn { exc_class : string; exc_str : string }.

Definition ValueError (msg : string) : exn := mkExn "ValueError" msg.
Definition TypeError (msg : string) : exn := mkExn "TypeError" msg.
Definition AttributeError (msg : string) : exn := mkExn "AttributeError" msg.
Definition IndexError (msg : string) : exn := mkExn "IndexError" msg.
Definition JSONDecodeError (msg : string) : exn := mkExn "JSONDecodeError" msg.
Definition Exception (msg : string) : exn := mkExn "Exception" msg.

(** A pure step that may raise. *)
Inductive res (A : Type) : Type :=
| Ok (a : A)
| Err (e : exn).
Arguments Ok {A} a.
Arguments Err {A} e.

Definition res_bind {A B} (r : res A) (k : A -> res B) : res B :=
  match r with
  | Ok a => k a
  | Err e => Err e
  end.

(** ** Python values *)

(** A float.  A finite one is kept as the decimal numeral it prints as,
    [(-1)^negative * digits * 10^exp10] with [digits] free of trailing zeros.
    For a numeral of at most 15 significant digits within the range of the
    normal doubles this is the float itself ([repr] gives the numeral back);
    a longer numeral stands for the double nearest to it, whose own shortest
    numeral the model does not compute. *)
Inductive pyfloat : Type :=
| FNaN
| FInf (negative : bool)
| FDec (negative : bool) (digits : Z) (exp10 : Z).

(** A value: the JSON-shaped types, and [PObject] for an instance of any
    other class (a [set], a [datetime], ...), known by its type name. *)
Inductive pyval : Type :=
| PNone
| PBool (b : bool)
| PInt (z : Z)
| PFloat (f : pyfloat)
| PStr (s : string)
| PList (l : list pyval)
| PDict (d : list (string * pyval))
| PObject (type_name : string).

Definition type_name_of (v : pyval) : string :=
  match v with
  | PNone => "NoneType"
  | PBool _ => "bool"
  | PInt _ => "int"
  | PFloat _ => "float"
  | PStr _ => "str"
  | PList _ => "list"
  | PDict _ => "dict"
  | PObject t => t
  end.

(** A [dict] keeps its keys in insertion order. *)
Module Dict.

Definition t : Type := list (string * pyval).

Fixpoint get (d : t) (k : string) : option pyval :=
  match d with
  | [] => None
  | (k', v) :: rest => if String.eqb k k' then Some v else get rest k
  end.

(** [d[k] = v]: an existing key keeps its place, a new one goes last. *)
Fixpoint set (d : t) (k : string) (v : pyval) : t :=
  match d with
  | [] => [(k, v)]
  | (k', v') :: rest =>
      if String.eqb k k' then (k', v) :: rest else (k', v') :: set rest k v
  end.

Definition keys (d : t) : list string := map fst d.

(** [dict(pairs)]. *)
Definition of_pairs (pairs : list (string * pyval)) : t :=
  fold_left (fun d kv => set d (fst kv) (snd kv)) pairs [].

End Dict.

(** ** The interpreter's state and the outside world *)

(** One chat message of a request. *)
Record message : Type := mkMessage { role : string; content : string }.

Inductive response_format_type : Type :=
| json_object
| text_format.

(** The arguments of [openai.chat.completions.create]. *)
Record request : Type := mkRequest {
  model : string;
  messages : list message;
  response_format : response_format_type
}.

(** The object the client returns: [choices[i].message.content] for each
    choice, [None] when a choice carries no text. *)
Record completion : Type := mkCompletion { choices : list (option string) }.

(** What the remote service does with a request: the outcome the client
    reports and the time the exchange takes, in seconds. *)
Record reply : Type := mkReply { outcome : res completion; latency : Q }.

Definition loc : Type := nat.

Record world : Type := mkWorld {
  heap : list pyval;          (* the objects, by address *)
  clock : Q;                  (* wall-clock seconds since the epoch *)
  sent : list request;        (* requests issued so far, oldest first *)
  remote : request -> reply   (* the service *)
}.

(** How a call ends. *)
Inductive result (A : Type) : Type :=
| Return (a : A)
| Raise (e : exn).
Arguments Return {A} a.
Arguments Raise {A} e.

(** A computation: it runs in a world, ends in a result and leaves a world. *)
Definition M (A : Type) : Type := world -> result A * world.

Definition ret {A} (a : A) : M A := fun w => (Return a, w).

Definition raise {A} (e : exn) : M A := fun w => (Raise e, w).

Definition bind {A B} (m : M A) (k : A -> M B) : M B :=
  fun w =>
    match m w with
    | (Return a, w') => k a w'
    | (Raise e, w') => (Raise e, w')
    end.

Notation "x <- m ;; k" := (bind m (fun x => k))
  (at level 61, m at next level, right associativity).
Notation "m ;;; k" := (bind m (fun _ => k))
  (at level 61, right associativity).

(** [try: m except Exception as e: h e]. *)
Definition try_except {A} (m : M A) (h : exn -> M A) : M A :=
  fun w =>
    match m w with
    | (Return a, w') => (Return a, w')
    | (Raise e, w') => h e w'
    end.

Definition lift {A} (r : res A) : M A :=
  match r with
  | Ok a => ret a
  | Err e => raise e
  end.

(** The object at an address; an address never allocated reads as [None]. *)
Definition deref (w : world) (l : loc) : pyval := nth l (heap w) PNone.

Definition load (l : loc) : M pyval := fun w => (Return (deref w l), w).

(** A new object. *)
Definition alloc (v : pyval) : M loc :=
  fun w =>
    (Return (List.length (heap w)),
     mkWorld (heap w ++ [v])%list (clock w) (sent w) (remote w)).

Fixpoint update {A} (l : list A) (i : nat) (a : A) : list A :=
  match l, i with
  | [], _ => []
  | _ :: r, O => a :: r
  | x :: r, S i' => x :: update r i' a
  end.

Definition store (l : loc) (v : pyval) : M unit :=
  fun w =>
    (Return tt, mkWorld (update (heap w) l v) (clock w) (sent w) (remote w)).

(** [time.time()]. *)
Definition time_time : M Q := fun w => (Return (clock w), w).

(** [int(x)] for a finite float: truncation towards zero. *)
Definition int_of_float (x : Q) : Z := Z.quot (Qnum x) (Z.pos (Qden x)).

(** [openai.chat.completions.create(...)]: the request goes out, the call
    blocks for the exchange, and the client returns or raises. *)
Definition chat_completions_create (req : request) : M completion :=
  fun w =>
    let r := remote w req in
    let w' := mkWorld (heap w) (clock w + latency r)%Q (sent w ++ [req])%list
                      (remote w) in
    match outcome r with
    | Ok c => (Return c, w')
    | Err e => (Raise e, w')
    end.

(** [obj.get(key, default)]. *)
Definition py_get (obj : loc) (key : string) (default : pyval) : M pyval :=
  v <- load obj ;;
  match v with
  | PDict d =>
      match Dict.get d key with
      | Some x => ret x
      | None => ret default
      end
  | _ =>
      raise (AttributeError
               ("'" ++ type_name_of v ++ "' object has no attribute 'get'"))
  end.

(** [obj[key] = value] for a string key. *)
Definition py_setitem (obj : loc) (key : string) (value : pyval) : M unit :=
  v <- load obj ;;
  match v with
  | PDict d => store obj (PDict (Dict.set d key value))
  | PList _ =>
      raise (TypeError "list indices must be integers or slices, not str")
  | _ =>
      raise (TypeError
               ("'" ++ type_name_of v
                    ++ "' object does not support item assignment"))
  end.

(** [seq[0]]. *)
Definition first_choice (c : completion) : M (option string) :=
  match choices c with
  | x :: _ => ret x
  | [] => raise (IndexError "list index out of range")
  end.

(** ** [str.__format__]

    The format-specification parser and the string renderer of CPython
    ([parse_internal_render_format_spec], [format_string_internal] and
    [format_obj] for [str] in [formatter_unicode.c], 3.12 wording of the
    messages).  Width and precision digits are the ASCII ones. *)

Module Format.

Inductive separators : Type :=
| LT_NO_LOCALE
| LT_DEFAULT_LOCALE
| LT_UNDERSCORE_LOCALE.

Record spec : Type := mkSpec {
  fill_char : string;              (* one code point *)
  align : ascii;
  alternate : bool;
  no_neg_0 : bool;
  sign : option ascii;
  width : option Z;
  thousands_separators : separators;
  precision : option Z;
  type : ascii
}.

Definition PY_SSIZE_T_MAX : Z := 2 ^ 63 - 1.

Definition is_alignment_token (c : ascii) : bool := Str.mem c "<>=^".

Definition is_sign_element (c : ascii) : bool := Str.mem c " +-".

(** The next character is [c]: consume it. *)
Definition eat (c : ascii) (s : string) : bool * string :=
  match s with
  | String c' r => if Ascii.eqb c c' then (true, r) else (false, s)
  | "" => (false, s)
  end.

(** Leading decimal digits: their value, how many there were, the rest. *)
Fixpoint get_integer (s : string) (acc : Z) (consumed : nat)
  : res (Z * nat * string) :=
  match s with
  | String c r =>
      if Str.is_digit c then
        let digitval := Str.code c - 48 in
        if (acc >? PY_SSIZE_T_MAX / 10) || (acc * 10 >? PY_SSIZE_T_MAX - digitval)
        then Err (ValueError "Too many decimal digits in format string")
        else get_integer r (acc * 10 + digitval) (S consumed)
      else Ok (acc, consumed, s)
  | "" => Ok (acc, consumed, s)
  end.

Definition invalid_comma_and_underscore {A} : res A :=
  Err (ValueError "Cannot specify both ',' and '_'.").

(** Fill and alignment: the second character is looked at first. *)
Definition parse_fill_align (default_align : ascii) (s : string)
  : string * ascii * bool * bool * string :=
  let unfilled :=
    match s with
    | String c r =>
        if is_alignment_token c then (" ", c, false, true, r)
        else (" ", default_align, false, false, s)
    | "" => (" ", default_align, false, false, s)
    end in
  match Str.cp_uncons s with
  | Some (c0, String c1 r) =>
      if is_alignment_token c1 then (c0, c1, true, true, r) else unfilled
  | _ => unfilled
  end.

Definition parse_sign (s : string) : option ascii * string :=
  match s with
  | String c r => if is_sign_element c then (Some c, r) else (None, s)
  | "" => (None, s)
  end.

Definition parse_internal_render_format_spec
    (type_name format_spec : string) (default_type default_align : ascii)
  : res spec :=
  let '(fill, align0, fill_char_specified, align_specified, s) :=
    parse_fill_align default_align format_spec in
  let '(sign0, s) := parse_sign s in
  let '(z, s) := eat "z" s in
  let '(alt, s) := eat "#" s in
  let '(zero, s) :=
    if fill_char_specified then (false, s) else eat "0" s in
  let fill := if zero then "0" else fill in
  let align1 :=
    if zero && negb align_specified && Ascii.eqb default_align ">"
    then "="%char else align0 in
  res_bind (get_integer s 0 O) (fun '(w, consumed, s) =>
  let width0 := match consumed with O => None | _ => Some w end in
  let '(comma, s) := eat "," s in
  let seps := if comma then LT_DEFAULT_LOCALE else LT_NO_LOCALE in
  let '(underscore, s) := eat "_" s in
  if underscore && comma then invalid_comma_and_underscore else
  let seps := if underscore then LT_UNDERSCORE_LOCALE else seps in
  if underscore && fst (eat "," s) then invalid_comma_and_underscore else
  let '(dot, s) := eat "." s in
  res_bind
    (if dot then
       res_bind (get_integer s 0 O) (fun '(p, consumed, s) =>
         match consumed with
         | O => Err (ValueError "Format specifier missing precision")
         | _ => Ok (Some p, s)
         end)
     else Ok (None, s))
    (fun '(precision0, s) =>
  match s with
  | String _ (String _ _) =>
      Err (ValueError ("Invalid format specifier '" ++ format_spec
                         ++ "' for object of type '" ++ type_name ++ "'"))
  | _ =>
      let type0 := match s with String c _ => c | "" => default_type end in
      let parsed :=
        mkSpec fill align1 alt z sign0 width0 seps precision0 type0 in
      match seps with
      | LT_NO_LOCALE => Ok parsed
      | _ =>
          if Str.mem type0 "defgEG%F" then Ok parsed
          else if Str.mem type0 "boxX"
                  && match seps with LT_UNDERSCORE_LOCALE => true | _ => false end
          then Ok parsed
          else
            Err (ValueError
                   ("Cannot specify '"
                      ++ (match seps with LT_UNDERSCORE_LOCALE => "_" | _ => "," end)
                      ++ "' with '" ++ String type0 "" ++ "'."))
      end
  end)).

(** Padding on the left and on the right. *)
Definition calc_padding (nchars : Z) (width : option Z) (align : ascii)
  : Z * Z :=
  let total :=
    match width with
    | Some w => if nchars >? w then nchars else w
    | None => nchars
    end in
  let n_lpadding :=
    if Ascii.eqb align ">" then total - nchars
    else if Ascii.eqb align "^" then (total - nchars) / 2
    else 0 in
  (n_lpadding, total - nchars - n_lpadding).

Definition format_string_internal (value : string) (format : spec)
  : res string :=
  match sign format with
  | Some " "%char =>
      Err (ValueError "Space not allowed in string format specifier")
  | Some _ => Err (ValueError "Sign not allowed in string format specifier")
  | None =>
      if no_neg_0 format then
        Err (ValueError
               "Negative zero coercion (z) not allowed in string format specifier")
      else if alternate format then
        Err (ValueError
               "Alternate form (#) not allowed in string format specifier")
      else if Ascii.eqb (align format) "=" then
        Err (ValueError "'=' alignment not allowed in string format specifier")
      else
        let len := Str.cp_len value in
        let len :=
          match precision format with
          | Some p => if len >=? p then p else len
          | None => len
          end in
        let '(lpad, rpad) := calc_padding len (width format) (align format) in
        Ok (Str.repeat (fill_char format) (Z.to_nat lpad)
              ++ Str.cp_take (String.length value) len value
              ++ Str.repeat (fill_char format) (Z.to_nat rpad))
  end.

(** [format(value, format_spec)] for a [str] value. *)
Definition format_str (value format_spec : string) : res string :=
  match format_spec with
  | "" => Ok value
  | _ =>
      res_bind
        (parse_internal_render_format_spec "str" format_spec "s" "<")
        (fun format =>
           if Ascii.eqb (type format) "s"
           then format_string_internal value format
           else
             Err (ValueError
                    ("Unknown format code '" ++ String (type format) ""
                       ++ "' for object of type 'str'")))
  end.

End Format.

(** ** Floats *)

Module Float.

(** Trailing zeros of the digits move into the exponent. *)
Fixpoint strip_zeros (fuel : nat) (digits exp10 : Z) : Z * Z :=
  match fuel with
  | O => (digits, exp10)
  | S fuel' =>
      if (digits =? 0) then (0, 0)
      else if digits mod 10 =? 0 then strip_zeros fuel' (digits / 10) (exp10 + 1)
      else (digits, exp10)
  end.

(** [digits * 10^exp10 >= num / den], for positive [den]. *)
Definition dec_ge (digits exp10 num den : Z) : bool :=
  if 0 <=? exp10 then num <=? digits * 10 ^ exp10 * den
  else num * 10 ^ (- exp10) <=? digits * den.

Definition dec_le (digits exp10 num den : Z) : bool :=
  if 0 <=? exp10 then digits * 10 ^ exp10 * den <=? num
  else digits * den <=? num * 10 ^ (- exp10).

(** [float(text)] for the numeral [(-1)^negative * digits * 10^exp10]:
    from half an ulp above the largest double on it is an infinity, up to
    half the smallest subnormal it is a zero. *)
Definition of_decimal (negative : bool) (digits exp10 : Z) : pyfloat :=
  if dec_ge digits exp10 (2 ^ 1024 - 2 ^ 970) 1 then FInf negative
  else if dec_le digits exp10 1 (2 ^ 1075) then FDec negative 0 0
  else
    let '(d, e) := strip_zeros (Z.to_nat (Z.log2 digits) + 1) digits exp10 in
    FDec negative d e.

(** The decimal digits of a non-negative integer. *)
Definition digits_of (n : Z) : string := Str.of_int n.

(** [float.__repr__]: plain notation while the decimal point falls within
    (-4, 16], exponent notation otherwise. *)
Definition repr (f : pyfloat) : string :=
  match f with
  | FNaN => "nan"
  | FInf negative => if negative then "-inf" else "inf"
  | FDec negative digits exp10 =>
      let sign := if negative then "-" else "" in
      if digits =? 0 then sign ++ "0.0"
      else
        let ds := digits_of digits in
        let n := Z.of_nat (String.length ds) in
        let decpt := n + exp10 in
        if (-4 <? decpt) && (decpt <=? 16) then
          if decpt <=? 0 then
            sign ++ "0." ++ Str.repeat "0" (Z.to_nat (- decpt)) ++ ds
          else if n <=? decpt then
            sign ++ ds ++ Str.repeat "0" (Z.to_nat (decpt - n)) ++ ".0"
          else
            sign ++ Str.take (Z.to_nat decpt) ds ++ "."
                 ++ Str.drop (Z.to_nat decpt) ds
        else
          let e := decpt - 1 in
          let es := digits_of (Z.abs e) in
          sign ++ Str.take 1 ds
               ++ (if n =? 1 then "" else "." ++ Str.drop 1 ds)
               ++ "e" ++ (if e <? 0 then "-" else "+")
               ++ (if Z.abs e <? 10 then "0" else "") ++ es
  end.

(** The rational a finite float denotes. *)
Definition value (f : pyfloat) : option Q :=
  match f with
  | FDec negative digits exp10 =>
      let m := if negative then - digits else digits in
      Some (if 0 <=? exp10 then inject_Z (m * 10 ^ exp10)
            else Qmake m (Z.to_pos (10 ^ (- exp10))))
  | _ => None
  end.

End Float.

(** ** [json.dumps(obj, indent=2)]

    The encoder of the standard library with its defaults: [ensure_ascii],
    [allow_nan], separators [","] and [": "], and no [default] hook, so an
    object of any other class is a [TypeError]. *)

Module Dumps.

Definition hex_digit (n : Z) : ascii :=
  if n <? 10 then Str.chr (48 + n) else Str.chr (87 + n).

(** ['\\u{0:04x}'.format(n)]. *)
Definition u_escape (n : Z) : string :=
  "\u" ++ String (hex_digit (n / 4096 mod 16))
            (String (hex_digit (n / 256 mod 16))
               (String (hex_digit (n / 16 mod 16))
                  (String (hex_digit (n mod 16)) ""))).

(** The replacement of one code point. *)
Definition escape_cp (cp : string) : string :=
  let n := Str.utf8_decode cp in
  if n =? 92 then "\\"
  else if n =? 34 then "\" ++ Str.dq
  else if n =? 8 then "\b"
  else if n =? 12 then "\f"
  else if n =? 10 then "\n"
  else if n =? 13 then "\r"
  else if n =? 9 then "\t"
  else if (32 <=? n) && (n <=? 126) then cp
  else if n <? 65536 then u_escape n
  else
    let m := n - 65536 in
    u_escape (55296 + (m / 1024) mod 1024) ++ u_escape (56320 + m mod 1024).

Fixpoint escape_all (fuel : nat) (s : string) : string :=
  match fuel with
  | O => ""
  | S fuel' =>
      match Str.cp_uncons s with
      | None => ""
      | Some (cp, r) => escape_cp cp ++ escape_all fuel' r
      end
  end.

Definition encode_basestring_ascii (s : string) : string :=
  Str.dq ++ escape_all (String.length s) s ++ Str.dq.

Definition floatstr (f : pyfloat) : string :=
  match f with
  | FNaN => "NaN"
  | FInf negative => if negative then "-Infinity" else "Infinity"
  | _ => Float.repr f
  end.

Definition indent_at (indent : nat) (level : nat) : string :=
  Str.nl ++ Str.repeat " " (indent * level).

Section Encode.

Variable indent : nat.

Fixpoint iterencode (o : pyval) (level : nat) : res string :=
  match o with
  | PNone => Ok "null"
  | PBool true => Ok "true"
  | PBool false => Ok "false"
  | PInt z => Ok (Str.of_int z)
  | PFloat f => Ok (floatstr f)
  | PStr s => Ok (encode_basestring_ascii s)
  | PList [] => Ok "[]"
  | PList lst =>
      let newline_indent := indent_at indent (S level) in
      let fix items (l : list pyval) (first : bool) : res string :=
        match l with
        | [] => Ok ""
        | value :: rest =>
            res_bind (iterencode value (S level)) (fun chunk =>
            res_bind (items rest false) (fun chunks =>
            Ok ((if first then "" else ",") ++ newline_indent
                  ++ chunk ++ chunks)))
        end in
      res_bind (items lst true) (fun body =>
      Ok ("[" ++ body ++ indent_at indent level ++ "]"))
  | PDict [] => Ok "{}"
  | PDict dct =>
      let newline_indent := indent_at indent (S level) in
      let fix items (l : list (string * pyval)) (first : bool) : res string :=
        match l with
        | [] => Ok ""
        | (key, value) :: rest =>
            res_bind (iterencode value (S level)) (fun chunk =>
            res_bind (items rest false) (fun chunks =>
            Ok ((if first then "" else ",") ++ newline_indent
                  ++ encode_basestring_ascii key ++ ": "
                  ++ chunk ++ chunks)))
        end in
      res_bind (items dct true) (fun body =>
      Ok ("{" ++ body ++ indent_at indent level ++ "}"))
  | PObject type_name =>
      Err (TypeError
             ("Object of type " ++ type_name ++ " is not JSON serializable"))
  end.

End Encode.

Definition dumps (obj : pyval) (indent : nat) : res string :=
  iterencode indent obj 0.

End Dumps.

(** ** [json.loads(s)]

    The scanner of the standard library with its defaults (no hooks,
    [strict]), after the C implementation CPython runs: same grammar, same
    messages, same offsets.  The nesting budget is twice the length of the
    text; the [RecursionError] of the interpreter on a very deep document
    and its limit on the digits of an [int] are outside the model. *)

Module Loads.

Definition is_whitespace (c : ascii) : bool :=
  (Str.code c =? 32) || (Str.code c =? 9) || (Str.code c =? 10)
  || (Str.code c =? 13).

(** One more code point passed, unless the byte continues one. *)
Definition step (c : ascii) (idx : Z) : Z :=
  if Str.is_continuation c then idx else idx + 1.

Fixpoint skip_whitespace (s : string) (idx : Z) : string * Z :=
  match s with
  | String c r => if is_whitespace c then skip_whitespace r (idx + 1) else (s, idx)
  | "" => (s, idx)
  end.

(** Line and column of the code point at offset [pos]. *)
Fixpoint line_col (doc : string) (pos line col : Z) : Z * Z :=
  match doc with
  | "" => (line, col)
  | String c r =>
      if Str.is_continuation c then line_col r pos line col
      else if pos <=? 0 then (line, col)
      else if Str.code c =? 10 then line_col r (pos - 1) (line + 1) 1
      else line_col r (pos - 1) line (col + 1)
  end.

Definition hex_value (c : ascii) : option Z :=
  let n := Str.code c in
  if (48 <=? n) && (n <=? 57) then Some (n - 48)
  else if (97 <=? n) && (n <=? 102) then Some (n - 87)
  else if (65 <=? n) && (n <=? 70) then Some (n - 55)
  else None.

Definition hex4 (a b c d : ascii) : option Z :=
  match hex_value a, hex_value b, hex_value c, hex_value d with
  | Some x, Some y, Some z, Some t => Some (((x * 16 + y) * 16 + z) * 16 + t)
  | _, _, _, _ => None
  end.

(** Leading decimal digits: their value, their number, the rest. *)
Fixpoint span_digits (s : string) (acc : Z) (n : Z) : Z * Z * string :=
  match s with
  | String c r =>
      if Str.is_digit c then span_digits r (acc * 10 + (Str.code c - 48)) (n + 1)
      else (acc, n, s)
  | "" => (acc, n, s)
  end.

(** [s] starts with [p]: what follows it. *)
Fixpoint strip_prefix (p s : string) : option string :=
  match p, s with
  | "", _ => Some s
  | String a p', String b s' => if Ascii.eqb a b then strip_prefix p' s' else None
  | _, "" => None
  end.

Section Scanner.

(** The whole document, for the line and the column of an error. *)
Variable doc : string.

Definition errmsg (msg : string) (pos : Z) : exn :=
  let '(line, col) := line_col doc pos 1 1 in
  JSONDecodeError
    (msg ++ ": line " ++ Str.of_int line ++ " column " ++ Str.of_int col
         ++ " (char " ++ Str.of_int pos ++ ")").

Definition fail {A} (msg : string) (pos : Z) : res A := Err (errmsg msg pos).

(** The scanner found no value at [idx]. *)
Definition stop_iteration {A} (idx : Z) : res A := fail "Expecting value" idx.

(** The text of a string whose opening quote is at [begin]; [s] is the
    input from offset [idx] on. *)
Fixpoint scanstring (s : string) (idx begin : Z) : res (string * string * Z) :=
  let unterminated := fail "Unterminated string starting at" begin in
  let chunk (c : string) (r : res (string * string * Z)) :=
    res_bind r (fun '(text, rest, e) => Ok (c ++ text, rest, e)) in
  match s with
  | "" => unterminated
  | String c r =>
      if Str.code c =? 34 then Ok ("", r, idx + 1)
      else if Str.code c =? 92 then
        match r with
        | "" => unterminated
        | String "u" (String h1 (String h2 (String h3 (String h4 r4)))) =>
            match r4 with
            | "" => fail "Invalid \uXXXX escape" (idx + 1)
            | String _ _ =>
                match hex4 h1 h2 h3 h4 with
                | None => fail "Invalid \uXXXX escape" (idx + 1)
                | Some c1 =>
                    let single (_ : unit) :=
                      chunk (Str.utf8_encode c1) (scanstring r4 (idx + 6) begin) in
                    match r4 with
                    | String "\" (String "u" (String g1 (String g2
                        (String g3 (String g4 (String _ _ as r10)))))) =>
                        if (55296 <=? c1) && (c1 <=? 56319) then
                          match hex4 g1 g2 g3 g4 with
                          | None => fail "Invalid \uXXXX escape" (idx + 7)
                          | Some c2 =>
                              if (56320 <=? c2) && (c2 <=? 57343) then
                                chunk
                                  (Str.utf8_encode
                                     (65536 + (c1 - 55296) * 1024 + (c2 - 56320)))
                                  (scanstring r10 (idx + 12) begin)
                              else single tt
                          end
                        else single tt
                    | _ => single tt
                    end
                end
            end
        | String "u" _ => fail "Invalid \uXXXX escape" (idx + 1)
        | String e r' =>
            let plain (x : Z) :=
              chunk (String (Str.chr x) "") (scanstring r' (idx + 2) begin) in
            if Str.mem e (Str.dq ++ "\/") then plain (Str.code e)
            else if Ascii.eqb e "b" then plain 8
            else if Ascii.eqb e "f" then plain 12
            else if Ascii.eqb e "n" then plain 10
            else if Ascii.eqb e "r" then plain 13
            else if Ascii.eqb e "t" then plain 9
            else fail "Invalid \escape" idx
        end
      else if Str.code c <=? 31 then fail "Invalid control character at" idx
      else chunk (String c "") (scanstring r (step c idx) begin)
  end.

(** A number at [idx]: an optional minus sign, then a zero or a digit from
    1 to 9 with any digits after it; then a fraction (a dot and one digit or
    more) and an exponent (e or E, an optional sign, one digit or more),
    each taken only when it is there in full. *)
Definition match_number (s : string) (idx : Z) : res (pyval * string * Z) :=
  let '(negative, s1) :=
    match s with
    | String "-" r => (true, r)
    | _ => (false, s)
    end in
  let integer :=
    match s1 with
    | String "0" r => Some (0, 1, r)
    | String c _ => if Str.is_digit c then Some (span_digits s1 0 0) else None
    | "" => None
    end in
  match integer with
  | None => stop_iteration idx
  | Some (i, ni, s2) =>
      let '(frac, s3) :=
        match s2 with
        | String "." (String d r) =>
            if Str.is_digit d then
              let '(f, nf, rest) := span_digits (String d r) 0 0 in
              (Some (f, nf), rest)
            else (None, s2)
        | _ => (None, s2)
        end in
      let '(expo, s4) :=
        match s3 with
        | String e r =>
            if Str.mem e "eE" then
              let '(eneg, r1) :=
                match r with
                | String "-" r' => (true, r')
                | String "+" r' => (false, r')
                | _ => (false, r)
                end in
              let '(x, nx, rest) := span_digits r1 0 0 in
              if nx =? 0 then (None, s3)
              else (Some (if eneg then - x else x), rest)
            else (None, s3)
        | "" => (None, s3)
        end in
      let consumed := Z.of_nat (String.length s) - Z.of_nat (String.length s4) in
      match frac, expo with
      | None, None =>
          Ok (PInt (if negative then - i else i), s4, idx + consumed)
      | _, _ =>
          let '(f, nf) := match frac with Some p => p | None => (0, 0) end in
          let x := match expo with Some x => x | None => 0 end in
          Ok (PFloat (Float.of_decimal negative (i * 10 ^ nf + f) (x - nf)),
              s4, idx + consumed)
      end
  end.

Definition RecursionError : exn :=
  mkExn "RecursionError" "maximum recursion depth exceeded while decoding a JSON document".

(** The value at [idx], the members of an object after its brace or a
    comma, and the items of an array likewise. *)
Fixpoint scan_once (depth : nat) (s : string) (idx : Z)
  : res (pyval * string * Z) :=
  match depth with
  | O => Err RecursionError
  | S depth' =>
      match s with
      | "" => stop_iteration idx
      | String c r =>
          if Str.code c =? 34 then
            res_bind (scanstring r (idx + 1) idx)
              (fun '(text, rest, e) => Ok (PStr text, rest, e))
          else if Ascii.eqb c "{" then
            let '(r1, i1) := skip_whitespace r (idx + 1) in
            match r1 with
            | String "}" r2 => Ok (PDict [], r2, i1 + 1)
            | _ => parse_object depth' r1 i1 []
            end
          else if Ascii.eqb c "[" then
            let '(r1, i1) := skip_whitespace r (idx + 1) in
            match r1 with
            | String "]" r2 => Ok (PList [], r2, i1 + 1)
            | _ => parse_array depth' r1 i1 []
            end
          else
            match strip_prefix "null" s, strip_prefix "true" s,
                  strip_prefix "false" s, strip_prefix "NaN" s,
                  strip_prefix "Infinity" s, strip_prefix "-Infinity" s with
            | Some rest, _, _, _, _, _ => Ok (PNone, rest, idx + 4)
            | _, Some rest, _, _, _, _ => Ok (PBool true, rest, idx + 4)
            | _, _, Some rest, _, _, _ => Ok (PBool false, rest, idx + 5)
            | _, _, _, Some rest, _, _ => Ok (PFloat FNaN, rest, idx + 3)
            | _, _, _, _, Some rest, _ => Ok (PFloat (FInf false), rest, idx + 8)
            | _, _, _, _, _, Some rest => Ok (PFloat (FInf true), rest, idx + 9)
            | _, _, _, _, _, _ => match_number s idx
            end
      end
  end

with parse_object (depth : nat) (s : string) (idx : Z) (pairs : Dict.t)
  : res (pyval * string * Z) :=
  match depth with
  | O => Err RecursionError
  | S depth' =>
      match s with
      | String c r =>
          if Str.code c =? 34 then
            res_bind (scanstring r (idx + 1) idx) (fun '(key, s1, i1) =>
            let '(s2, i2) := skip_whitespace s1 i1 in
            match s2 with
            | String ":" s3 =>
                let '(s4, i4) := skip_whitespace s3 (i2 + 1) in
                res_bind (scan_once depth' s4 i4) (fun '(value, s5, i5) =>
                let pairs' := Dict.set pairs key value in
                let '(s6, i6) := skip_whitespace s5 i5 in
                match s6 with
                | String "}" s7 => Ok (PDict pairs', s7, i6 + 1)
                | String "," s7 =>
                    let '(s8, i8) := skip_whitespace s7 (i6 + 1) in
                    parse_object depth' s8 i8 pairs'
                | _ => fail "Expecting ',' delimiter" i6
                end)
            | _ => fail "Expecting ':' delimiter" i2
            end)
          else fail "Expecting property name enclosed in double quotes" idx
      | "" => fail "Expecting property name enclosed in double quotes" idx
      end
  end

with parse_array (depth : nat) (s : string) (idx : Z) (values : list pyval)
  : res (pyval * string * Z) :=
  match depth with
  | O => Err RecursionError
  | S depth' =>
      res_bind (scan_once depth' s idx) (fun '(value, s1, i1) =>
      let values' := (values ++ [value])%list in
      let '(s2, i2) := skip_whitespace s1 i1 in
      match s2 with
      | String "]" s3 => Ok (PList values', s3, i2 + 1)
      | String "," s3 =>
          let '(s4, i4) := skip_whitespace s3 (i2 + 1) in
          parse_array depth' s4 i4 values'
      | _ => fail "Expecting ',' delimiter" i2
      end)
  end.

End Scanner.

(** [json.loads(s)] for a [str]. *)
Definition loads (s : string) : res pyval :=
  match strip_prefix (Str.utf8_encode 65279) s with
  | Some _ =>
      Err (errmsg s "Unexpected UTF-8 BOM (decode using utf-8-sig)" 0)
  | None =>
      let '(s0, i0) := skip_whitespace s 0 in
      res_bind (scan_once s (2 * String.length s + 2) s0 i0) (fun '(obj, s1, i1) =>
      let '(s2, i2) := skip_whitespace s1 i1 in
      match s2 with
      | "" => Ok obj
      | _ => Err (errmsg s "Extra data" i2)
      end)
  end.

(** [json.loads(x)] for what a message carries: text, or [None]. *)
Definition loads_content (x : option string) : res pyval :=
  match x with
  | Some s => loads s
  | None =>
      Err (TypeError
             "the JSON object must be str, bytes or bytearray, not NoneType")
  end.

End Loads.

(** ** f-strings *)

Module FString.

(** What the tokenizer makes of the text of an f-string: literal text, and
    replacement fields with the text of their expression and of their
    format specification. *)
Inductive segment : Type :=
| Literal (s : string)
| Replacement (expression : string) (format_spec : string).

Inductive mode : Type :=
| InLiteral (acc : string)
| InExpression (acc : string) (quote : option ascii) (depth : nat)
| InSpec (expression : string) (acc : string).

Definition snoc (s : string) (c : ascii) : string := s ++ String c "".

Definition is_blank (c : ascii) : bool :=
  Loads.is_whitespace c || (Str.code c =? 12).

Fixpoint lstrip (s : string) : string :=
  match s with
  | String c r => if is_blank c then lstrip r else s
  | "" => ""
  end.

Definition rev (s : string) : string :=
  string_of_list_ascii (List.rev (list_ascii_of_string s)).

Definition strip (s : string) : string := rev (lstrip (rev (lstrip s))).

Definition literal (acc : string) (rest : list segment) : list segment :=
  match acc with
  | "" => rest
  | _ => Literal acc :: rest
  end.

Definition replacement (expression spec : string) (rest : option (list segment))
  : option (list segment) :=
  match strip expression, rest with
  | "", _ => None                      (* empty expression not allowed *)
  | e, Some l => Some (Replacement e spec :: l)
  | _, None => None
  end.

(** The segments of the text of an f-string.  Doubled braces are literal
    braces; an expression runs to the first [:] or [}] outside quotes and
    brackets, a format specification to the next [}].  Text that needs more
    of the grammar (a conversion, [=], a backslash or a comment in an
    expression, a field inside a format specification) is refused. *)
Fixpoint scan (s : string) (m : mode) : option (list segment) :=
  match s with
  | "" =>
      match m with
      | InLiteral acc => Some (literal acc [])
      | _ => None                      (* expecting a closing brace *)
      end
  | String c r =>
      match m with
      | InLiteral acc =>
          if Ascii.eqb c "{" then
            match r with
            | String "{" r' => scan r' (InLiteral (snoc acc "{"))
            | _ => option_map (literal acc) (scan r (InExpression "" None 0))
            end
          else if Ascii.eqb c "}" then
            match r with
            | String "}" r' => scan r' (InLiteral (snoc acc "}"))
            | _ => None                (* single closing brace *)
            end
          else scan r (InLiteral (snoc acc c))
      | InExpression acc (Some q) depth =>
          scan r (InExpression (snoc acc c)
                    (if Ascii.eqb c q then None else Some q) depth)
      | InExpression acc None depth =>
          let continue (_ : unit) :=
            scan r (InExpression (snoc acc c) None depth) in
          if Str.mem c (Str.dq ++ "'") then
            scan r (InExpression (snoc acc c) (Some c) depth)
          else if Str.mem c "([{" then
            scan r (InExpression (snoc acc c) None (S depth))
          else if Str.mem c "\#" then None
          else
            match depth with
            | S depth' =>
                if Str.mem c ")]}" then
                  scan r (InExpression (snoc acc c) None depth')
                else continue tt
            | O =>
                if Ascii.eqb c "}" then
                  replacement acc "" (scan r (InLiteral ""))
                else if Ascii.eqb c ":" then scan r (InSpec acc "")
                else if Str.mem c "!=<>" then
                  match r with
                  | String "=" r' =>
                      scan r' (InExpression (snoc (snoc acc c) "=") None O)
                  | _ => if Str.mem c "<>" then continue tt else None
                  end
                else if Str.mem c ")]" then None
                else continue tt
            end
      | InSpec expression acc =>
          if Ascii.eqb c "}" then
            replacement expression acc (scan r (InLiteral ""))
          else if Ascii.eqb c "{" then None
          else scan r (InSpec expression (snoc acc c))
      end
  end.

Definition segments (source : string) : option (list segment) :=
  scan source (InLiteral "").

(** The expressions that occur in the f-string of [verify_referral]. *)
Inductive expr : Type :=
| StrLit (s : string)
    (* a string literal in double quotes, free of escapes *)
| DumpsGet (key : string).
    (* json.dumps(user_data.get(key, {}), indent=2) *)

Definition source_of (e : expr) : string :=
  match e with
  | StrLit s => Str.quoted s
  | DumpsGet key => "json.dumps(user_data.get('" ++ key ++ "', {}), indent=2)"
  end.

Inductive part : Type :=
| Lit (s : string)
| Field (e : expr) (format_spec : string).

Definition segment_of (p : part) : segment :=
  match p with
  | Lit s => Literal s
  | Field e spec => Replacement (source_of e) spec
  end.

Definition eval_expr (user_data : loc) (e : expr) : M string :=
  match e with
  | StrLit s => ret s
  | DumpsGet key =>
      v <- py_get user_data key (PDict []) ;;
      lift (Dumps.dumps v 2)
  end.

(** The parts are evaluated and formatted from left to right, then joined. *)
Fixpoint eval (user_data : loc) (parts : list part) : M string :=
  match parts with
  | [] => ret ""
  | Lit s :: rest =>
      tail <- eval user_data rest ;;
      ret (s ++ tail)
  | Field e spec :: rest =>
      value <- eval_expr user_data e ;;
      text <- lift (Format.format_str value spec) ;;
      tail <- eval user_data rest ;;
      ret (text ++ tail)
  end.

End FString.

(** ** The source: services/referral_verification.py *)

(** The text between the triple quotes of the f-string, lines 25 to 42. *)
Definition prompt_source : string :=
  Str.join Str.nl
    [ "";
      "        Analyze this referral for potential fraud or spam:";
      "        User Activity: {json.dumps(user_data.get('activity', {}), indent=2)}";
      "        Time Patterns: {json.dumps(user_data.get('timing', {}), indent=2)}";
      "        Interaction Data: {json.dumps(user_data.get('interactions', {}), indent=2)}";
      "";
      "        Determine if this is a legitimate referral by analyzing:";
      "        1. Activity patterns suggesting real user engagement";
      "        2. Natural timing distribution of actions";
      "        3. Interaction patterns between referrer and referred user";
      "";
      "        Respond with a JSON object containing:";
      "        {";
      "            " ++ Str.quoted "verified" ++ ": boolean,";
      "            " ++ Str.quoted "confidence" ++ ": float between 0 and 1,";
      "            " ++ Str.quoted "reasoning" ++ ": "
                     ++ Str.quoted "detailed explanation";
      "        }";
      "        " ].

(** What follows the colon of the brace block of lines 37 to 41. *)
Definition brace_block_spec : string :=
  Str.join Str.nl
    [ " boolean,";
      "            " ++ Str.quoted "confidence" ++ ": float between 0 and 1,";
      "            " ++ Str.quoted "reasoning" ++ ": "
                     ++ Str.quoted "detailed explanation";
      "        " ].

(** The f-string as the interpreter evaluates it. *)
Definition prompt_parts : list FString.part :=
  [ FString.Lit
      (Str.join Str.nl
         [ "";
           "        Analyze this referral for potential fraud or spam:";
           "        User Activity: " ]);
    FString.Field (FString.DumpsGet "activity") "";
    FString.Lit (Str.join Str.nl [ ""; "        Time Patterns: " ]);
    FString.Field (FString.DumpsGet "timing") "";
    FString.Lit (Str.join Str.nl [ ""; "        Interaction Data: " ]);
    FString.Field (FString.DumpsGet "interactions") "";
    FString.Lit
      (Str.join Str.nl
         [ "";
           "";
           "        Determine if this is a legitimate referral by analyzing:";
           "        1. Activity patterns suggesting real user engagement";
           "        2. Natural timing distribution of actions";
           "        3. Interaction patterns between referrer and referred user";
           "";
           "        Respond with a JSON object containing:";
           "        " ]);
    FString.Field (FString.StrLit "verified") brace_block_spec;
    FString.Lit (Str.join Str.nl [ ""; "        " ]) ].

Definition system_content : string :=
  "You are a referral verification expert. Analyze the given data and detect fraudulent or spam referrals.".

Definition model_name : string := "gpt-4o".

(** Lines 25 to 42. *)
Definition build_prompt (user_data : loc) : M string :=
  FString.eval user_data prompt_parts.

(** The request of lines 44 to 54. *)
Definition the_request (prompt : string) : request :=
  mkRequest model_name
    [ mkMessage "system" system_content; mkMessage "user" prompt ]
    json_object.

(** Lines 44 to 62. *)
Definition request_and_parse (prompt : string) : M loc :=
  response <- chat_completions_create (the_request prompt) ;;
  body <- first_choice response ;;
  parsed <- lift (Loads.loads_content body) ;;
  result <- alloc parsed ;;
  now <- time_time ;;
  py_setitem result "timestamp" (PStr (Str.of_int (int_of_float now))) ;;;
  py_setitem result "model_version" (PStr model_name) ;;;
  ret result.

(** Lines 64 and 65. *)
Definition failure_prefix : string := "Failed to verify referral: ".

Definition rewrap {A} (e : exn) : M A :=
  raise (Exception (failure_prefix ++ exc_str e)).

(** The body of the [try] statement. *)
Definition verify_referral_body (user_data : loc) : M loc :=
  prompt <- build_prompt user_data ;;
  request_and_parse prompt.

Definition verify_referral (user_data : loc) : M loc :=
  try_except (verify_referral_body user_data) rewrap.

(** ** Notions the properties are stated with *)

(** Lines 44 to 62 under the handler of lines 64 and 65. *)
Definition guarded_request_and_parse (prompt : string) : M loc :=
  try_except (request_and_parse prompt) rewrap.

(** The error the caller sees for a cause. *)
Definition surfaced (cause : exn) : exn :=
  Exception (failure_prefix ++ exc_str cause).

(** A field that cannot be formatted: a string constant whose format
    specification [str.__format__] rejects. *)
Definition ill_formatted (p : FString.part) : bool :=
  match p with
  | FString.Field (FString.StrLit s) spec =>
      match Format.format_str s spec with
      | Err _ => true
      | Ok _ => false
      end
  | _ => false
  end.

(** The world once the exchange with the service is over. *)
Definition received (prompt : string) (w : world) : world :=
  mkWorld (heap w)
          (clock w + latency (remote w (the_request prompt)))%Q
          (sent w ++ [the_request prompt])%list
          (remote w).

(** The world with one more object. *)
Definition with_object (w : world) (v : pyval) : world :=
  mkWorld (heap w ++ [v])%list (clock w) (sent w) (remote w).

(** The parsed object after lines 59 and 60. *)
Definition stamped (d : Dict.t) (now : Q) : Dict.t :=
  Dict.set
    (Dict.set d "timestamp" (PStr (Str.of_int (int_of_float now))))
    "model_version" (PStr model_name).

(** What item assignment raises on a value that is not a [dict]. *)
Definition not_assignable (v : pyval) : exn :=
  match v with
  | PList _ => TypeError "list indices must be integers or slices, not str"
  | _ =>
      TypeError
        ("'" ++ type_name_of v ++ "' object does not support item assignment")
  end.

(** A number between 0 and 1. *)
Definition in_unit_interval (v : pyval) : bool :=
  match v with
  | PInt z => (0 <=? z) && (z <=? 1)
  | PFloat f =>
      match Float.value f with
      | Some q => Qle_bool 0 q && Qle_bool q 1
      | None => false
      end
  | _ => false
  end.

(** The three fields the model is asked for, with their types. *)
Definition model_fields_ok (d : Dict.t) : bool :=
  match Dict.get d "verified", Dict.get d "confidence",
        Dict.get d "reasoning" with
  | Some (PBool _), Some c, Some (PStr _) => in_unit_interval c
  | _, _, _ => false
  end.

(** The five fields of a verification result, with their types. *)
Definition well_typed_result (v : pyval) : bool :=
  match v with
  | PDict d =>
      model_fields_ok d
      && match Dict.get d "timestamp", Dict.get d "model_version" with
         | Some (PStr t), Some (PStr m) =>
             Str.numeric t && String.eqb m model_name
         | _, _ => false
         end
  | _ => false
  end.

(** The service answers every request with an object that is not JSON. *)
Definition replies_invalid_json (w : world) : Prop :=
  forall req, exists c body rest cause,
    outcome (remote w req) = Ok c
    /\ choices c = Some body :: rest
    /\ Loads.loads body = Err cause.

(** ** Worlds to run the function in *)

(** The stubbed response of the specification. *)
Definition stub_body : string :=
  "{" ++ Str.quoted "verified" ++ ": true, "
      ++ Str.quoted "confidence" ++ ": 0.9, "
      ++ Str.quoted "reasoning" ++ ": " ++ Str.quoted "consistent timing"
      ++ "}".

Definition stub_parsed : Dict.t :=
  [ ("verified", PBool true);
    ("confidence", PFloat (FDec false 9 (-1)));
    ("reasoning", PStr "consistent timing") ].

(** A response whose fields have the wrong types and one of which is
    missing. *)
Definition ill_typed_body : string :=
  "{" ++ Str.quoted "verified" ++ ": " ++ Str.quoted "yes" ++ ", "
      ++ Str.quoted "confidence" ++ ": 7}".

(** A response that brings its own metadata. *)
Definition forged_body : string :=
  "{" ++ Str.quoted "timestamp" ++ ": " ++ Str.quoted "0" ++ ", "
      ++ Str.quoted "verified" ++ ": true, "
      ++ Str.quoted "model_version" ++ ": " ++ Str.quoted "gpt-5" ++ "}".

(** One object in the heap, [user_data] at address 0; the clock at
    1730000000 seconds; a service that answers every request with [body]
    after a second and a half. *)
Definition stub_world (user_data : pyval) (body : string) : world :=
  mkWorld [user_data] (1730000000 # 1) []
          (fun _ => mkReply (Ok (mkCompletion [Some body])) (3 # 2)).

(** The same with a service that cannot be reached. *)
Definition unreachable_world (user_data : pyval) : world :=
  mkWorld [user_data] (1730000000 # 1) []
          (fun _ =>
             mkReply (Err (mkExn "APIConnectionError" "Connection error."))
                     (1 # 2)).

(** A record without any of the three sub-mappings. *)
Definition empty_record : pyval := PDict [].

(** A record with the three sub-mappings. *)
Definition full_record : pyval :=
  PDict [ ("activity", PDict [("logins", PInt 3)]);
          ("timing", PDict [("first_seen", PStr "2024-05-13")]);
          ("interactions", PDict []) ].

(** A record whose timing holds an object [json.dumps] cannot serialize. *)
Definition datetime_record : pyval :=
  PDict [ ("timing", PDict [("first_seen", PObject "datetime")]) ].

(** What [str.__format__] raises on the brace block. *)
Definition brace_block_error : exn :=
  ValueError
    ("Invalid format specifier '" ++ brace_block_spec
       ++ "' for object of type 'str'").

(** ** Notions for the further properties *)

(** [user_data.get(key, {})] for a record [d]. *)
Definition sub_mapping (d : Dict.t) (key : string) : pyval :=
  match Dict.get d key with
  | Some x => x
  | None => PDict []
  end.

(** The error of the first of the three sub-mappings, in the order of lines
    27 to 29, that [json.dumps] cannot serialize. *)
Definition first_unserializable (d : Dict.t) : option exn :=
  match Dumps.dumps (sub_mapping d "activity") 2 with
  | Err e => Some e
  | Ok _ =>
      match Dumps.dumps (sub_mapping d "timing") 2 with
      | Err e => Some e
      | Ok _ =>
          match Dumps.dumps (sub_mapping d "interactions") 2 with
          | Err e => Some e
          | Ok _ => None
          end
      end
  end.

(** What prompt construction raises for a record [d]. *)
Definition prompt_failure (d : Dict.t) : exn :=
  match first_unserializable d with
  | Some e => e
  | None => brace_block_error
  end.

(** The values of the built-in types that have no [get] method. *)
Definition lacks_get (v : pyval) : bool :=
  match v with
  | PDict _ | PObject _ => false
  | _ => true
  end.

Definition is_dict (v : pyval) : bool :=
  match v with
  | PDict _ => true
  | _ => false
  end.

(** The metadata keys the object [d] does not have, in the order lines 59
    and 60 assign them. *)
Definition missing_metadata (d : Dict.t) : list string :=
  filter (fun k => negb (existsb (String.eqb k) (Dict.keys d)))
         ["timestamp"; "model_version"].

(** A record whose activity and timing both hold objects [json.dumps]
    cannot serialize. *)
Definition doubly_bad_record : pyval :=
  PDict [ ("timing", PDict [("first_seen", PObject "datetime")]);
          ("activity", PDict [("pages", PObject "set")]) ].

(** A record with keys the function does not ask for. *)
Definition padded_record : pyval :=
  PDict [ ("referrer", PObject "User");
          ("activity", PDict [("logins", PInt 3)]);
          ("timing", PDict [("first_seen", PStr "2024-05-13")]);
          ("interactions", PDict []);
          ("note", PStr "padding") ].

(** A service that answers with no choice at all, and one whose only choice
    carries no text. *)
Definition choiceless_world : world :=
  mkWorld [empty_record] (1730000000 # 1) []
          (fun _ => mkReply (Ok (mkCompletion [])) (1 # 2)).

Definition textless_world : world :=
  mkWorld [empty_record] (1730000000 # 1) []
          (fun _ => mkReply (Ok (mkCompletion [None])) (1 # 2)).

(** A response that has one of the two metadata keys, first. *)
Definition half_stamped_body : string :=
  "{" ++ Str.quoted "model_version" ++ ": 1, "
      ++ Str.quoted "verified" ++ ": false}".




(** * Properties *)

(** ** [str.__format__] on small inputs *)

Example format_pad : Format.format_str "ab" "*^6" = Ok "**ab**".
Proof. reflexivity. Qed.

Example format_right : Format.format_str "ab" ">5.1" = Ok "    a".
Proof. reflexivity. Qed.

Example format_zero : Format.format_str "ab" "05" = Ok "ab000".
Proof. reflexivity. Qed.

Example format_space :
  Format.format_str "ab" " "
  = Err (ValueError "Space not allowed in string format specifier").
Proof. reflexivity. Qed.

Example format_comma :
  Format.format_str "ab" "," = Err (ValueError "Cannot specify ',' with 's'.").
Proof. reflexivity. Qed.

Example format_long :
  Format.format_str "ab" " boolean"
  = Err (ValueError
           "Invalid format specifier ' boolean' for object of type 'str'").
Proof. reflexivity. Qed.

(** ** Dictionaries *)

Module DictFacts.

Lemma get_set_same (d : Dict.t) (k : string) (v : pyval) :
  Dict.get (Dict.set d k v) k = Some v.
Proof.
  induction d as [| [k' v'] rest IH]; simpl.
  - now rewrite String.eqb_refl.
  - destruct (String.eqb k k') eqn:E; simpl; rewrite E; auto.
Qed.

Lemma get_set_other (d : Dict.t) (k k' : string) (v : pyval) :
  k <> k' -> Dict.get (Dict.set d k v) k' = Dict.get d k'.
Proof.
  intros Hne.
  induction d as [| [k0 v0] rest IH]; simpl.
  - destruct (String.eqb_spec k' k); congruence.
  - destruct (String.eqb_spec k k0) as [-> | Hk]; simpl.
    + destruct (String.eqb_spec k' k0); congruence.
    + now rewrite IH.
Qed.

(** Assigning to a key that is there keeps the keys and their order. *)
Lemma keys_set_present (d : Dict.t) (k : string) (v : pyval) :
  In k (Dict.keys d) -> Dict.keys (Dict.set d k v) = Dict.keys d.
Proof.
  induction d as [| [k0 v0] rest IH]; simpl; [tauto |].
  intros H.
  destruct (String.eqb_spec k k0) as [-> | Hk]; simpl; [reflexivity |].
  f_equal. apply IH. destruct H; congruence.
Qed.

(** Assigning to a new key puts it last. *)
Lemma keys_set_absent (d : Dict.t) (k : string) (v : pyval) :
  ~ In k (Dict.keys d) -> Dict.keys (Dict.set d k v) = (Dict.keys d ++ [k])%list.
Proof.
  induction d as [| [k0 v0] rest IH]; simpl; [reflexivity |].
  intros H.
  destruct (String.eqb_spec k k0) as [-> | Hk]; simpl; [tauto |].
  f_equal. apply IH. tauto.
Qed.

End DictFacts.

(** ** Decimal numerals and truncation *)

Module StrFacts.

Lemma digits_of_uint (d : Decimal.uint) :
  forallb Str.is_digit (list_ascii_of_string (NilEmpty.string_of_uint d)) = true.
Proof.
  induction d; simpl; auto.
Qed.

Lemma all_digits_uint (d : Decimal.uint) :
  Str.all_digits (NilZero.string_of_uint d) = true.
Proof.
  destruct d; try reflexivity;
    match goal with
    | |- Str.all_digits (NilZero.string_of_uint ?u) = true =>
        exact (digits_of_uint u)
    end.
Qed.

(** [str(n)] is a numeric string. *)
Lemma numeric_of_int (z : Z) : Str.numeric (Str.of_int z) = true.
Proof.
  unfold Str.of_int.
  destruct z as [| p | p]; [reflexivity | |]; cbn [Z.to_int NilZero.string_of_int].
  - pose proof (all_digits_uint (Pos.to_uint p)) as H.
    unfold Str.numeric.
    destruct (NilZero.string_of_uint (Pos.to_uint p)) as [| c r] eqn:E;
      [discriminate |].
    destruct (Ascii.eqb_spec c "-") as [-> | _]; [| exact H].
    unfold Str.all_digits in H. cbn in H. discriminate.
  - unfold Str.numeric. cbn. apply all_digits_uint.
Qed.

(** [int(str(n))] is [n]. *)
Lemma to_int_of_int (z : Z) : Str.to_int (Str.of_int z) = Some z.
Proof.
  unfold Str.to_int, Str.of_int.
  rewrite NilZero.isi.
  - cbn. now rewrite DecimalZ.of_to.
  - destruct z; cbn; try discriminate.
    intros [= H]. now apply DecimalPos.Unsigned.to_uint_nonnil in H.
  - destruct z; cbn; try discriminate.
    intros [= H]. now apply DecimalPos.Unsigned.to_uint_nonnil in H.
Qed.

(** Truncation moves a number by less than one. *)
Lemma int_of_float_close (x : Q) :
  (Qabs (x - inject_Z (int_of_float x)) < 1)%Q.
Proof.
  destruct x as [n d]. unfold int_of_float. cbn [Qnum Qden].
  pose proof (Z.quot_rem' n (Z.pos d)) as Hqr.
  pose proof (Z.rem_bound_abs n (Z.pos d) ltac:(lia)) as Hb.
  set (q := Z.quot n (Z.pos d)) in *. set (r := Z.rem n (Z.pos d)) in *.
  apply Qabs_Qlt_condition.
  unfold Qlt, Qminus, Qplus, Qopp, inject_Z; cbn.
  split; nia.
Qed.

(** From the epoch on, truncation is the floor. *)
Lemma int_of_float_floor (x : Q) :
  (0 <= x)%Q ->
  (inject_Z (int_of_float x) <= x)%Q /\ (x < inject_Z (int_of_float x) + 1)%Q.
Proof.
  destruct x as [n d]. unfold int_of_float, Qle, Qlt. cbn.
  intros Hn. rewrite Z.mul_1_r in Hn.
  rewrite Z.quot_div_nonneg by lia.
  pose proof (Z.div_mod n (Z.pos d) ltac:(lia)) as Hdm.
  pose proof (Z.mod_pos_bound n (Z.pos d) ltac:(lia)) as Hb.
  split; nia.
Qed.

End StrFacts.

(** ** Prompt construction *)

Section PromptFacts.

Variable user_data : loc.

Lemma eval_expr_pure (e : FString.expr) (w : world) :
  snd (FString.eval_expr user_data e w) = w.
Proof.
  destruct e as [s | key]; [reflexivity |].
  unfold FString.eval_expr, py_get, bind, load, lift, ret, raise.
  destruct (deref w user_data); try reflexivity.
  destruct (Dict.get d key) as [x |];
    [destruct (Dumps.dumps x 2) | destruct (Dumps.dumps (PDict []) 2)];
    reflexivity.
Qed.

(** Evaluating an f-string of this shape leaves the world as it is. *)
Lemma eval_pure (parts : list FString.part) (w : world) :
  snd (FString.eval user_data parts w) = w.
Proof.
  induction parts as [| [s | e spec] rest IH]; [reflexivity | |]; cbn.
  - unfold bind. destruct (FString.eval user_data rest w) as [[t | x] w'] eqn:E;
      cbn in *; congruence.
  - unfold bind.
    pose proof (eval_expr_pure e w) as He.
    destruct (FString.eval_expr user_data e w) as [[v | x] w1]; cbn in *;
      subst w1; [| reflexivity].
    destruct (Format.format_str v spec) as [text | x]; cbn; [| reflexivity].
    destruct (FString.eval user_data rest w) as [[t | x] w'] eqn:E;
      cbn in *; congruence.
Qed.

(** One ill-formatted field is enough for the whole f-string to raise. *)
Lemma eval_raises (parts : list FString.part) :
  existsb ill_formatted parts = true ->
  forall w, exists cause, FString.eval user_data parts w = (Raise cause, w).
Proof.
  induction parts as [| p rest IH]; [discriminate |].
  intros Hex w. cbn [existsb] in Hex.
  destruct p as [s | e spec]; cbn [FString.eval]; unfold bind.
  - cbn in Hex. destruct (IH Hex w) as [cause ->]. now exists cause.
  - pose proof (eval_expr_pure e w) as He.
    destruct (FString.eval_expr user_data e w) as [[v | x] w1] eqn:Ee;
      cbn in He; subst w1; [| now exists x].
    destruct (Format.format_str v spec) as [text | x] eqn:Ef; cbn;
      [| now exists x].
    assert (Hrest : existsb ill_formatted rest = true).
    { destruct e as [s | key]; [| exact Hex].
      cbn in Ee. injection Ee as <-.
      cbn in Hex. rewrite Ef in Hex. exact Hex. }
    destruct (IH Hrest w) as [cause ->]. now exists cause.
Qed.

End PromptFacts.

(** The tokenizer splits the text of lines 25 to 42 into the parts the
    embedding evaluates; the brace block of lines 37 to 41 is the fourth
    replacement field. *)
Lemma prompt_source_segments :
  FString.segments prompt_source = Some (map FString.segment_of prompt_parts).
Proof. vm_compute. reflexivity. Qed.

(** [str.__format__] rejects what follows the colon in the brace block. *)
Lemma brace_block_rejected :
  Format.format_str "verified" brace_block_spec
  = Err (ValueError
           ("Invalid format specifier '" ++ brace_block_spec
              ++ "' for object of type 'str'")).
Proof. vm_compute. reflexivity. Qed.

Lemma prompt_has_ill_formatted_field :
  existsb ill_formatted prompt_parts = true.
Proof. vm_compute. reflexivity. Qed.

(** Prompt construction raises in every world, and leaves it as it was. *)
Lemma build_prompt_raises (user_data : loc) (w : world) :
  exists cause, build_prompt user_data w = (Raise cause, w).
Proof.
  apply eval_raises. exact prompt_has_ill_formatted_field.
Qed.

Lemma verify_referral_of_prompt_failure (user_data : loc) (w w' : world)
    (cause : exn) :
  build_prompt user_data w = (Raise cause, w') ->
  verify_referral user_data w = (Raise (surfaced cause), w').
Proof.
  intros H.
  unfold verify_referral, try_except, verify_referral_body, bind.
  now rewrite H.
Qed.

(** C1. For every [user_data], [verify_referral] raises an [Exception]
    whose message starts with "Failed to verify referral: " and never
    returns a result: the brace block of the f-string is a replacement
    field whose format specifier is invalid for a string, so prompt
    construction raises, the world is untouched (no request has gone out),
    and the handler wraps the error. *)
Theorem verify_referral_always_raises :
  FString.segments prompt_source = Some (map FString.segment_of prompt_parts)
  /\ In (FString.Field (FString.StrLit "verified") brace_block_spec) prompt_parts
  /\ (exists e, Format.format_str "verified" brace_block_spec = Err e
                /\ exc_class e = "ValueError")
  /\ forall (user_data : loc) (w : world),
       exists cause,
         build_prompt user_data w = (Raise cause, w)
         /\ verify_referral user_data w
            = (Raise (Exception ("Failed to verify referral: " ++ exc_str cause)),
               w)
         /\ sent (snd (verify_referral user_data w)) = sent w.
Proof.
  split; [exact prompt_source_segments |].
  split; [cbn; tauto |].
  split; [rewrite brace_block_rejected; eexists; split; reflexivity |].
  intros user_data w.
  destruct (build_prompt_raises user_data w) as [cause H].
  exists cause.
  rewrite (verify_referral_of_prompt_failure _ _ _ _ H).
  repeat split; auto.
Qed.

(** ** The request, the parse and the two assignments *)

Lemma update_last {A} (h : list A) (v v' : A) :
  update (h ++ [v])%list (List.length h) v' = (h ++ [v'])%list.
Proof.
  induction h as [| x h IH]; cbn; [reflexivity | now rewrite IH].
Qed.

Lemma firstn_extended {A} (h extra : list A) :
  firstn (List.length h) (h ++ extra)%list = h.
Proof.
  induction h as [| x h IH]; cbn; [reflexivity | now rewrite IH].
Qed.

(** Every run of lines 44 to 62, case by case. *)
Lemma request_and_parse_cases (prompt : string) (w : world) :
  request_and_parse prompt w =
  let w1 := received prompt w in
  match outcome (remote w (the_request prompt)) with
  | Err e => (Raise e, w1)
  | Ok c =>
      match choices c with
      | [] => (Raise (IndexError "list index out of range"), w1)
      | body :: _ =>
          match Loads.loads_content body with
          | Err e => (Raise e, w1)
          | Ok (PDict d) =>
              (Return (List.length (heap w)),
               with_object w1 (PDict (stamped d (clock w1))))
          | Ok v => (Raise (not_assignable v), with_object w1 v)
          end
      end
  end.
Proof.
  unfold request_and_parse, bind, chat_completions_create.
  fold (received prompt w).
  destruct (outcome (remote w (the_request prompt))) as [c | e]; [| reflexivity].
  unfold first_choice.
  destruct (choices c) as [| body rest]; [reflexivity |].
  unfold ret at 1.
  destruct (Loads.loads_content body) as [v | e]; [| reflexivity].
  unfold lift, ret at 1, alloc, time_time, py_setitem, bind, load, store, deref.
  cbn [heap clock sent remote received].
  rewrite nth_middle.
  destruct v; try reflexivity.
  cbn [heap clock sent remote]. rewrite update_last, nth_middle.
  cbn [heap clock sent remote]. rewrite update_last.
  reflexivity.
Qed.

(** A run of lines 44 to 62 that returns went through a reply that parsed
    to an object. *)
Lemma request_and_parse_returned (prompt : string) (w w' : world) (r : loc) :
  request_and_parse prompt w = (Return r, w') ->
  exists c body rest d,
    outcome (remote w (the_request prompt)) = Ok c
    /\ choices c = body :: rest
    /\ Loads.loads_content body = Ok (PDict d)
    /\ r = List.length (heap w)
    /\ w' = with_object (received prompt w)
                        (PDict (stamped d (clock (received prompt w)))).
Proof.
  rewrite request_and_parse_cases. cbv zeta.
  destruct (outcome (remote w (the_request prompt))) as [c | e] eqn:Ho;
    [| discriminate].
  destruct (choices c) as [| body rest] eqn:Hc; [discriminate |].
  destruct (Loads.loads_content body) as [v | e] eqn:Hl; [| discriminate].
  destruct v; try discriminate.
  intros [= <- <-]. now exists c, body, rest, d.
Qed.

(** A reply that parses to an object makes lines 44 to 62 return. *)
Lemma request_and_parse_returns (prompt : string) (w : world)
    (c : completion) (body : option string) (rest : list (option string))
    (d : Dict.t) :
  outcome (remote w (the_request prompt)) = Ok c ->
  choices c = body :: rest ->
  Loads.loads_content body = Ok (PDict d) ->
  request_and_parse prompt w
  = (Return (List.length (heap w)),
     with_object (received prompt w)
                 (PDict (stamped d (clock (received prompt w))))).
Proof.
  intros H1 H2 H3. rewrite request_and_parse_cases. cbv zeta.
  now rewrite H1, H2, H3.
Qed.

Lemma deref_new_object (w : world) (v : pyval) :
  deref (with_object w v) (List.length (heap w)) = v.
Proof.
  unfold deref, with_object. cbn [heap]. apply nth_middle.
Qed.

Lemma stamped_timestamp (d : Dict.t) (now : Q) :
  Dict.get (stamped d now) "timestamp"
  = Some (PStr (Str.of_int (int_of_float now))).
Proof.
  unfold stamped.
  rewrite DictFacts.get_set_other by discriminate.
  apply DictFacts.get_set_same.
Qed.

Lemma stamped_model_version (d : Dict.t) (now : Q) :
  Dict.get (stamped d now) "model_version" = Some (PStr model_name).
Proof.
  unfold stamped. apply DictFacts.get_set_same.
Qed.

Lemma stamped_other (d : Dict.t) (now : Q) (k : string) :
  k <> "timestamp" -> k <> "model_version" ->
  Dict.get (stamped d now) k = Dict.get d k.
Proof.
  intros H1 H2. unfold stamped.
  rewrite !DictFacts.get_set_other by congruence. reflexivity.
Qed.

Lemma stamped_keys_present (d : Dict.t) (now : Q) :
  In "timestamp" (Dict.keys d) -> In "model_version" (Dict.keys d) ->
  Dict.keys (stamped d now) = Dict.keys d.
Proof.
  intros H1 H2. unfold stamped.
  rewrite DictFacts.keys_set_present;
    rewrite DictFacts.keys_set_present; auto.
Qed.

Lemma stamped_keys_absent (d : Dict.t) (now : Q) :
  ~ In "timestamp" (Dict.keys d) -> ~ In "model_version" (Dict.keys d) ->
  Dict.keys (stamped d now)
  = (Dict.keys d ++ ["timestamp"; "model_version"])%list.
Proof.
  intros H1 H2. unfold stamped.
  rewrite DictFacts.keys_set_absent;
    rewrite DictFacts.keys_set_absent; auto.
  - now rewrite <- app_assoc.
  - intros H. apply in_app_or in H. cbn in H.
    destruct H as [H | [H | []]]; [tauto | discriminate].
Qed.

(** ** The function on concrete inputs *)

Lemma stub_body_parses : Loads.loads stub_body = Ok (PDict stub_parsed).
Proof. vm_compute. reflexivity. Qed.

Lemma verify_referral_empty_record (body : string) :
  verify_referral 0%nat (stub_world empty_record body)
  = (Raise (surfaced brace_block_error), stub_world empty_record body).
Proof.
  apply verify_referral_of_prompt_failure. vm_compute. reflexivity.
Qed.

(** C2, on the code.  With the service stubbed to answer the specification's
    response, [verify_referral] raises and hands back no mapping: the
    response is never asked for.  Lines 44 to 62 alone, given a prompt,
    would return that data with [timestamp] and [model_version] added and
    nothing else changed. *)
Theorem stubbed_response_is_not_returned :
  let w := stub_world empty_record stub_body in
  Loads.loads stub_body = Ok (PDict stub_parsed)
  /\ verify_referral 0%nat w = (Raise (surfaced brace_block_error), w)
  /\ sent (snd (verify_referral 0%nat w)) = []
  /\ exists w',
       request_and_parse "prompt" w = (Return 1%nat, w')
       /\ deref w' 1%nat
          = PDict (stub_parsed ++ [ ("timestamp", PStr "1730000001");
                                    ("model_version", PStr "gpt-4o") ])%list.
Proof.
  cbv zeta. split; [exact stub_body_parses |].
  rewrite verify_referral_empty_record.
  split; [reflexivity |]. split; [reflexivity |].
  eexists. split; vm_compute; reflexivity.
Qed.

(** C4, on the code.  For a record without the three sub-mappings the three
    [get] calls do substitute an empty mapping, printed as an empty object;
    the next replacement field then raises, before any request is issued. *)
Theorem absent_sub_mappings_raise_before_the_request :
  let w := stub_world empty_record stub_body in
  (forall key,
     FString.eval_expr 0%nat (FString.DumpsGet key) w = (Return "{}", w))
  /\ (exists text, FString.eval 0%nat (firstn 7 prompt_parts) w = (Return text, w))
  /\ build_prompt 0%nat w = (Raise brace_block_error, w)
  /\ verify_referral 0%nat w = (Raise (surfaced brace_block_error), w)
  /\ sent (snd (verify_referral 0%nat w)) = [].
Proof.
  cbv zeta. split; [intros key; reflexivity |].
  split; [eexists; vm_compute; reflexivity |].
  split; [vm_compute; reflexivity |].
  rewrite verify_referral_empty_record. split; reflexivity.
Qed.

(** C3, on the code.  No record gets a mapping back.  For a record with the
    three sub-mappings and a service that answers with the three fields well
    typed, [verify_referral] raises the generic error while it builds the
    prompt: no request goes out and no object is created.  Lines 44 to 62
    alone, given a prompt, would return the five keys with their types. *)
Theorem full_record_gets_no_mapping :
  let w := stub_world full_record stub_body in
  (exists a t i,
     full_record
     = PDict [ ("activity", PDict a); ("timing", PDict t);
               ("interactions", PDict i) ])
  /\ verify_referral 0%nat w = (Raise (surfaced brace_block_error), w)
  /\ sent (snd (verify_referral 0%nat w)) = []
  /\ heap (snd (verify_referral 0%nat w)) = [full_record]
  /\ (forall user_data w0,
        exists cause,
          verify_referral user_data w0 = (Raise (surfaced cause), w0))
  /\ exists w',
       request_and_parse "prompt" w = (Return 1%nat, w')
       /\ well_typed_result (deref w' 1%nat) = true.
Proof.
  cbv zeta.
  assert (H : verify_referral 0%nat (stub_world full_record stub_body)
              = (Raise (surfaced brace_block_error),
                 stub_world full_record stub_body)).
  { apply verify_referral_of_prompt_failure. vm_compute. reflexivity. }
  split; [do 3 eexists; reflexivity |].
  rewrite H. split; [reflexivity |]. split; [reflexivity |].
  split; [reflexivity |]. split.
  - intros user_data w0.
    destruct (build_prompt_raises user_data w0) as [cause Hc].
    exists cause. now apply verify_referral_of_prompt_failure.
  - eexists. split; vm_compute; reflexivity.
Qed.

Lemma well_typed_stamped (d : Dict.t) (now : Q) :
  well_typed_result (PDict (stamped d now)) = model_fields_ok d.
Proof.
  unfold well_typed_result, model_fields_ok.
  rewrite stamped_timestamp, stamped_model_version.
  rewrite !stamped_other by discriminate.
  rewrite StrFacts.numeric_of_int, String.eqb_refl.
  now rewrite andb_true_r.
Qed.

(** X12. Lines 56 to 62 check nothing.  Whenever lines 44 to 62 return,
    the reply parsed to an object and the mapping returned is that object
    with two keys set: [timestamp], a numeric string, and [model_version],
    the fixed text.  Under every other key, [verified], [confidence] and
    [reasoning] among them, the mapping has what the model sent, present or
    absent and of whatever type; so the result has the types of the
    docstring exactly when the model's object has them. *)
Theorem returned_mapping_is_the_parsed_object :
  forall (prompt : string) (w w' : world) (r : loc),
    request_and_parse prompt w = (Return r, w') ->
    exists c body rest d d',
      outcome (remote w (the_request prompt)) = Ok c
      /\ choices c = body :: rest
      /\ Loads.loads_content body = Ok (PDict d)
      /\ deref w' r = PDict d'
      /\ (exists t, Dict.get d' "timestamp" = Some (PStr t)
                    /\ Str.numeric t = true)
      /\ Dict.get d' "model_version" = Some (PStr model_name)
      /\ (forall k, k <> "timestamp" -> k <> "model_version" ->
                    Dict.get d' k = Dict.get d k)
      /\ well_typed_result (PDict d') = model_fields_ok d.
Proof.
  intros prompt w w' r H.
  destruct (request_and_parse_returned _ _ _ _ H)
    as (c & body & rest & d & Ho & Hc & Hl & -> & ->).
  exists c, body, rest, d, (stamped d (clock (received prompt w))).
  repeat split; auto.
  - exact (deref_new_object (received prompt w) _).
  - eexists. split; [apply stamped_timestamp | apply StrFacts.numeric_of_int].
  - apply stamped_model_version.
  - intros k H1 H2. now apply stamped_other.
  - apply well_typed_stamped.
Qed.

Lemma returned_mapping_is_the_parsed_object_witness :
  exists w',
    request_and_parse "prompt" (stub_world full_record stub_body)
    = (Return 1%nat, w')
    /\ exists d', deref w' 1%nat = PDict d'
                  /\ well_typed_result (PDict d') = model_fields_ok stub_parsed.
Proof.
  exists (snd (request_and_parse "prompt" (stub_world full_record stub_body))).
  assert (H : request_and_parse "prompt" (stub_world full_record stub_body)
              = (Return 1%nat,
                 snd (request_and_parse "prompt"
                        (stub_world full_record stub_body))))
    by (vm_compute; reflexivity).
  split; [exact H |].
  destruct (returned_mapping_is_the_parsed_object _ _ _ _ H)
    as (c & body & rest & d & d' & Ho & Hc & Hl & Hd & _ & _ & _ & Hw).
  exists d'. split; [exact Hd |].
  rewrite Hw. f_equal.
  injection Ho as <-. injection Hc as <- _.
  change (Loads.loads stub_body = Ok (PDict d)) in Hl.
  rewrite stub_body_parses in Hl. now injection Hl as <-.
Defined.

(** ** Failures *)

Lemma guarded_of_failure (prompt : string) (w w' : world) (cause : exn) :
  request_and_parse prompt w = (Raise cause, w') ->
  guarded_request_and_parse prompt w = (Raise (surfaced cause), w').
Proof.
  intros H. unfold guarded_request_and_parse, try_except. now rewrite H.
Qed.

Lemma surfaced_contains (cause : exn) :
  Str.contains (exc_str (surfaced cause)) (exc_str cause).
Proof.
  exists failure_prefix, "". cbn [surfaced Exception exc_str].
  f_equal. induction (exc_str cause) as [| c s IH]; cbn; congruence.
Qed.

(** C5. Whichever step raises, prompt construction, the remote call or the
    parsing of the reply, and whatever it raises, [verify_referral] raises
    one error of the one class [Exception], whose message is the fixed
    prefix followed by the text of the cause; no mapping is handed back,
    and none has been created. *)
Theorem every_failure_surfaces_as_one_exception :
  (forall user_data w cause w',
     build_prompt user_data w = (Raise cause, w') ->
     verify_referral user_data w = (Raise (surfaced cause), w'))
  /\ (forall prompt w cause,
        outcome (remote w (the_request prompt)) = Err cause ->
        guarded_request_and_parse prompt w
        = (Raise (surfaced cause), received prompt w))
  /\ (forall prompt w c body rest cause,
        outcome (remote w (the_request prompt)) = Ok c ->
        choices c = body :: rest ->
        Loads.loads_content body = Err cause ->
        guarded_request_and_parse prompt w
        = (Raise (surfaced cause), received prompt w))
  /\ (forall user_data w cause w',
        verify_referral_body user_data w = (Raise cause, w') ->
        verify_referral user_data w = (Raise (surfaced cause), w'))
  /\ (forall cause,
        exc_class (surfaced cause) = "Exception"
        /\ exc_str (surfaced cause)
           = "Failed to verify referral: " ++ exc_str cause
        /\ Str.contains (exc_str (surfaced cause)) (exc_str cause))
  /\ (forall prompt w, heap (received prompt w) = heap w).
Proof.
  split;
    [intros user_data w cause w'; apply verify_referral_of_prompt_failure |].
  split.
  { intros prompt w cause H. apply guarded_of_failure.
    rewrite request_and_parse_cases. cbv zeta. now rewrite H. }
  split.
  { intros prompt w c body rest cause H1 H2 H3. apply guarded_of_failure.
    rewrite request_and_parse_cases. cbv zeta. now rewrite H1, H2, H3. }
  split.
  { intros user_data w cause w' H. unfold verify_referral, try_except.
    now rewrite H. }
  split; [| reflexivity].
  intros cause. repeat split. apply surfaced_contains.
Qed.

Lemma every_failure_surfaces_as_one_exception_witness :
  verify_referral 0%nat (stub_world datetime_record stub_body)
  = (Raise (Exception
              "Failed to verify referral: Object of type datetime is not JSON serializable"),
     stub_world datetime_record stub_body)
  /\ guarded_request_and_parse "prompt" (unreachable_world empty_record)
     = (Raise (Exception "Failed to verify referral: Connection error."),
        received "prompt" (unreachable_world empty_record))
  /\ guarded_request_and_parse "prompt" (stub_world empty_record "not json")
     = (Raise (Exception
                 "Failed to verify referral: Expecting value: line 1 column 1 (char 0)"),
        received "prompt" (stub_world empty_record "not json")).
Proof.
  destruct every_failure_surfaces_as_one_exception as (H1 & H2 & H3 & _).
  split; [| split].
  - apply (H1 0%nat (stub_world datetime_record stub_body)
              (TypeError "Object of type datetime is not JSON serializable")).
    vm_compute. reflexivity.
  - apply (H2 "prompt" (unreachable_world empty_record)
              (mkExn "APIConnectionError" "Connection error.")).
    reflexivity.
  - apply (H3 "prompt" (stub_world empty_record "not json")
              (mkCompletion [Some "not json"]) (Some "not json") []
              (JSONDecodeError "Expecting value: line 1 column 1 (char 0)")).
    + reflexivity.
    + reflexivity.
    + vm_compute. reflexivity.
Defined.

(** C6. When the body of the reply is not valid JSON, [verify_referral]
    raises; and lines 44 to 62 under the handler raise the one generic
    error for the parse error, with no mapping created, whatever the
    prompt. *)
Theorem invalid_json_is_an_error :
  forall w : world,
    replies_invalid_json w ->
    (forall user_data, exists e w', verify_referral user_data w = (Raise e, w'))
    /\ (forall prompt, exists body cause,
          Loads.loads body = Err cause
          /\ guarded_request_and_parse prompt w
             = (Raise (surfaced cause), received prompt w)
          /\ heap (received prompt w) = heap w).
Proof.
  intros w Hbad. split.
  - intros user_data.
    destruct (build_prompt_raises user_data w) as [cause H].
    exists (surfaced cause), w.
    now apply verify_referral_of_prompt_failure.
  - intros prompt.
    destruct (Hbad (the_request prompt)) as (c & body & rest & cause & Ho & Hc & Hl).
    exists body, cause. split; [exact Hl |]. split; [| reflexivity].
    apply guarded_of_failure.
    rewrite request_and_parse_cases. cbv zeta. rewrite Ho, Hc.
    cbn [Loads.loads_content]. now rewrite Hl.
Qed.

Lemma not_json_is_invalid :
  replies_invalid_json (stub_world empty_record "not json").
Proof.
  intros req.
  exists (mkCompletion [Some "not json"]), "not json", [],
         (JSONDecodeError "Expecting value: line 1 column 1 (char 0)").
  split; [reflexivity | split; [reflexivity | vm_compute; reflexivity]].
Defined.

Lemma invalid_json_is_an_error_witness :
  replies_invalid_json (stub_world empty_record "not json")
  /\ (exists e w',
        verify_referral 0%nat (stub_world empty_record "not json")
        = (Raise e, w'))
  /\ exists body cause,
       Loads.loads body = Err cause
       /\ guarded_request_and_parse "prompt" (stub_world empty_record "not json")
          = (Raise (surfaced cause),
             received "prompt" (stub_world empty_record "not json"))
       /\ heap (received "prompt" (stub_world empty_record "not json"))
          = [empty_record].
Proof.
  split; [exact not_json_is_invalid |].
  destruct (invalid_json_is_an_error _ not_json_is_invalid) as [H1 H2].
  split; [exact (H1 0%nat) | exact (H2 "prompt")].
Defined.

(** ** The metadata of lines 59 and 60 *)



(** X11. Whatever the object parsed from the reply holds, lines 44 to 62
    return: no error is raised for a [timestamp] or a [model_version] the
    model sent.  In the mapping returned those two keys hold the wall-clock
    seconds and the fixed identifier, every other key holds what the model
    sent, and when the model sent both keys the mapping has the model's
    keys, in their order, and no other. *)
Theorem metadata_is_overwritten :
  forall (prompt : string) (w : world) (c : completion)
         (body : option string) (rest : list (option string)) (d : Dict.t),
    outcome (remote w (the_request prompt)) = Ok c ->
    choices c = body :: rest ->
    Loads.loads_content body = Ok (PDict d) ->
    exists r w' d',
      request_and_parse prompt w = (Return r, w')
      /\ deref w' r = PDict d'
      /\ Dict.get d' "timestamp"
         = Some (PStr (Str.of_int (int_of_float (clock w'))))
      /\ Dict.get d' "model_version" = Some (PStr "gpt-4o")
      /\ (forall k, k <> "timestamp" -> k <> "model_version" ->
                    Dict.get d' k = Dict.get d k)
      /\ (In "timestamp" (Dict.keys d) -> In "model_version" (Dict.keys d) ->
          Dict.keys d' = Dict.keys d).
Proof.
  intros prompt w c body rest d Ho Hc Hl.
  eexists _, _, _.
  split; [exact (request_and_parse_returns _ _ _ _ _ _ Ho Hc Hl) |].
  split; [exact (deref_new_object (received prompt w) _) |].
  split; [apply stamped_timestamp |].
  split; [apply stamped_model_version |].
  split; [intros k; apply stamped_other | apply stamped_keys_present].
Qed.

Lemma metadata_is_overwritten_witness :
  Loads.loads forged_body
  = Ok (PDict [ ("timestamp", PStr "0"); ("verified", PBool true);
                ("model_version", PStr "gpt-5") ])
  /\ exists w',
       request_and_parse "prompt" (stub_world empty_record forged_body)
       = (Return 1%nat, w')
       /\ deref w' 1%nat
          = PDict [ ("timestamp", PStr "1730000001"); ("verified", PBool true);
                    ("model_version", PStr "gpt-4o") ].
Proof.
  assert (Hl : Loads.loads forged_body
               = Ok (PDict [ ("timestamp", PStr "0"); ("verified", PBool true);
                             ("model_version", PStr "gpt-5") ]))
    by (vm_compute; reflexivity).
  split; [exact Hl |].
  destruct (metadata_is_overwritten "prompt"
              (stub_world empty_record forged_body)
              (mkCompletion [Some forged_body]) (Some forged_body) [] _
              eq_refl eq_refl Hl)
    as (r & w' & d' & Hr & Hd & _).
  exists w'.
  assert (Hrun : request_and_parse "prompt" (stub_world empty_record forged_body)
                 = (Return 1%nat,
                    snd (request_and_parse "prompt"
                           (stub_world empty_record forged_body))))
    by (vm_compute; reflexivity).
  rewrite Hrun in Hr. injection Hr as <- <-.
  split; [exact Hrun |]. vm_compute. reflexivity.
Defined.

(** ** Frame *)

Lemma guarded_heap (prompt : string) (w : world) :
  exists extra,
    heap (snd (guarded_request_and_parse prompt w)) = (heap w ++ extra)%list.
Proof.
  unfold guarded_request_and_parse, try_except.
  rewrite request_and_parse_cases. cbv zeta.
  destruct (outcome (remote w (the_request prompt))) as [c | e];
    [| exists []; cbn; now rewrite app_nil_r].
  destruct (choices c) as [| body rest];
    [exists []; cbn; now rewrite app_nil_r |].
  destruct (Loads.loads_content body) as [v | e];
    [| exists []; cbn; now rewrite app_nil_r].
  destruct v; eexists; cbn; reflexivity.
Qed.

(** C8. [verify_referral] leaves the heap as it found it, so [user_data]
    and its sub-mappings are after the call what they were before; and
    lines 44 to 62 under the handler, whether they return or raise, keep
    every object that was there, at most adding one of their own. *)
Theorem input_is_not_mutated :
  (forall user_data w, heap (snd (verify_referral user_data w)) = heap w)
  /\ (forall user_data w,
        deref (snd (verify_referral user_data w)) user_data
        = deref w user_data)
  /\ (forall prompt w,
        firstn (List.length (heap w))
               (heap (snd (guarded_request_and_parse prompt w)))
        = heap w).
Proof.
  assert (H : forall user_data w, snd (verify_referral user_data w) = w).
  { intros user_data w.
    destruct (build_prompt_raises user_data w) as [cause Hc].
    now rewrite (verify_referral_of_prompt_failure _ _ _ _ Hc). }
  split; [intros; now rewrite H |].
  split; [intros; now rewrite H |].
  intros prompt w. destruct (guarded_heap prompt w) as [extra ->].
  apply firstn_extended.
Qed.

(** ** Requests *)

Lemma guarded_sent (prompt : string) (w : world) :
  sent (snd (guarded_request_and_parse prompt w))
  = (sent w ++ [the_request prompt])%list.
Proof.
  unfold guarded_request_and_parse, try_except.
  rewrite request_and_parse_cases. cbv zeta.
  destruct (outcome (remote w (the_request prompt))) as [c | e];
    [| reflexivity].
  destruct (choices c) as [| body rest]; [reflexivity |].
  destruct (Loads.loads_content body) as [v | e]; [| reflexivity].
  destruct v; reflexivity.
Qed.


(** * Further properties of [verify_referral] *)

(** ** Which error prompt construction raises *)

Section PromptFailure.

Variable user_data : loc.

Lemma eval_lit (s : string) (rest : list FString.part) (w : world) :
  FString.eval user_data (FString.Lit s :: rest) w
  = match FString.eval user_data rest w with
    | (Return tail, w') => (Return (s ++ tail), w')
    | (Raise x, w') => (Raise x, w')
    end.
Proof. reflexivity. Qed.

Lemma eval_field (e : FString.expr) (spec : string)
    (rest : list FString.part) (w : world) :
  FString.eval user_data (FString.Field e spec :: rest) w
  = match FString.eval_expr user_data e w with
    | (Return v, w') =>
        match Format.format_str v spec with
        | Ok t =>
            match FString.eval user_data rest w' with
            | (Return tail, w'') => (Return (t ++ tail), w'')
            | (Raise x, w'') => (Raise x, w'')
            end
        | Err x => (Raise x, w')
        end
    | (Raise x, w') => (Raise x, w')
    end.
Proof.
  cbn [FString.eval]. unfold bind.
  destruct (FString.eval_expr user_data e w) as [[v | x] w']; [| reflexivity].
  destruct (Format.format_str v spec); reflexivity.
Qed.

(** A field of lines 27 to 29 on a record: the value under the key, or an
    empty mapping when the key is absent, goes to [json.dumps]. *)
Lemma eval_expr_dumps_get (key : string) (w : world) (d : Dict.t) :
  deref w user_data = PDict d ->
  FString.eval_expr user_data (FString.DumpsGet key) w
  = (match Dumps.dumps (sub_mapping d key) 2 with
     | Ok s => Return s
     | Err e => Raise e
     end, w).
Proof.
  intros H.
  unfold FString.eval_expr, py_get, bind, load, lift, ret, raise, sub_mapping.
  rewrite H.
  destruct (Dict.get d key) as [x |];
    [destruct (Dumps.dumps x 2) | destruct (Dumps.dumps (PDict []) 2)];
    reflexivity.
Qed.

(** Prompt construction on a record, in full. *)
Lemma build_prompt_record (w : world) (d : Dict.t) :
  deref w user_data = PDict d ->
  build_prompt user_data w = (Raise (prompt_failure d), w).
Proof.
  intros H.
  unfold build_prompt, prompt_parts, prompt_failure, first_unserializable.
  rewrite eval_lit, eval_field, (eval_expr_dumps_get _ _ _ H).
  destruct (Dumps.dumps (sub_mapping d "activity") 2) as [s1 | e1];
    [| reflexivity].
  change (Format.format_str s1 "") with (Ok s1).
  rewrite eval_lit, eval_field, (eval_expr_dumps_get _ _ _ H).
  destruct (Dumps.dumps (sub_mapping d "timing") 2) as [s2 | e2];
    [| reflexivity].
  change (Format.format_str s2 "") with (Ok s2).
  rewrite eval_lit, eval_field, (eval_expr_dumps_get _ _ _ H).
  destruct (Dumps.dumps (sub_mapping d "interactions") 2) as [s3 | e3];
    [| reflexivity].
  change (Format.format_str s3 "") with (Ok s3).
  rewrite eval_lit, eval_field.
  change (FString.eval_expr user_data (FString.StrLit "verified") w)
    with (@Return string "verified", w).
  cbv beta iota. rewrite brace_block_rejected. reflexivity.
Qed.

Lemma verify_referral_record (w : world) (d : Dict.t) :
  deref w user_data = PDict d ->
  verify_referral user_data w = (Raise (surfaced (prompt_failure d)), w).
Proof.
  intros H. apply verify_referral_of_prompt_failure.
  now apply build_prompt_record.
Qed.

End PromptFailure.

(** X1. For a record whose three sub-mappings (an empty mapping standing in
    for an absent one) can all be serialized, the error is always the same:
    the generic exception for the format specifier of the brace block,
    whatever the record holds. *)
Theorem serializable_record_fails_on_the_brace_block :
  forall (user_data : loc) (w : world) (d : Dict.t),
    deref w user_data = PDict d ->
    first_unserializable d = None ->
    verify_referral user_data w
    = (Raise (Exception
                ("Failed to verify referral: Invalid format specifier '"
                   ++ brace_block_spec ++ "' for object of type 'str'")),
       w).
Proof.
  intros user_data w d H Hs.
  rewrite (verify_referral_record _ _ _ H).
  unfold prompt_failure. now rewrite Hs.
Qed.

Lemma serializable_record_fails_on_the_brace_block_witness :
  first_unserializable
    [ ("activity", PDict [("logins", PInt 3)]);
      ("timing", PDict [("first_seen", PStr "2024-05-13")]);
      ("interactions", PDict []) ] = None
  /\ verify_referral 0%nat (stub_world full_record stub_body)
     = (Raise (Exception
                 ("Failed to verify referral: Invalid format specifier '"
                    ++ brace_block_spec ++ "' for object of type 'str'")),
        stub_world full_record stub_body).
Proof.
  assert (Hs : first_unserializable
                 [ ("activity", PDict [("logins", PInt 3)]);
                   ("timing", PDict [("first_seen", PStr "2024-05-13")]);
                   ("interactions", PDict []) ] = None)
    by (vm_compute; reflexivity).
  split; [exact Hs |].
  exact (serializable_record_fails_on_the_brace_block
           0%nat (stub_world full_record stub_body) _ eq_refl Hs).
Defined.

(** X2. The sub-mappings are serialized in the order activity, timing,
    interactions, and the first one [json.dumps] rejects decides the error:
    its message is reported, and what comes after it is not looked at. *)
Theorem first_unserializable_sub_mapping_is_reported :
  forall (user_data : loc) (w : world) (d : Dict.t),
    deref w user_data = PDict d ->
    (forall e,
       Dumps.dumps (sub_mapping d "activity") 2 = Err e ->
       verify_referral user_data w = (Raise (surfaced e), w))
    /\ (forall s e,
          Dumps.dumps (sub_mapping d "activity") 2 = Ok s ->
          Dumps.dumps (sub_mapping d "timing") 2 = Err e ->
          verify_referral user_data w = (Raise (surfaced e), w))
    /\ (forall s s' e,
          Dumps.dumps (sub_mapping d "activity") 2 = Ok s ->
          Dumps.dumps (sub_mapping d "timing") 2 = Ok s' ->
          Dumps.dumps (sub_mapping d "interactions") 2 = Err e ->
          verify_referral user_data w = (Raise (surfaced e), w)).
Proof.
  intros user_data w d H.
  rewrite (verify_referral_record _ _ _ H).
  unfold prompt_failure, first_unserializable.
  split; [| split].
  - intros e ->. reflexivity.
  - intros s e -> ->. reflexivity.
  - intros s s' e -> -> ->. reflexivity.
Qed.

Lemma first_unserializable_sub_mapping_is_reported_witness :
  verify_referral 0%nat (stub_world doubly_bad_record stub_body)
  = (Raise (Exception
              "Failed to verify referral: Object of type set is not JSON serializable"),
     stub_world doubly_bad_record stub_body).
Proof.
  destruct (first_unserializable_sub_mapping_is_reported
              0%nat (stub_world doubly_bad_record stub_body) _ eq_refl)
    as [Hactivity _].
  apply (Hactivity (TypeError "Object of type set is not JSON serializable")).
  vm_compute. reflexivity.
Defined.

(** X3. The outcome depends on the record only through what it holds under
    activity, timing and interactions: two calls whose records agree there
    end in the same error, whatever other keys the records have and
    whatever the clock, the service and the rest of the heap are. *)
Theorem outcome_depends_only_on_the_three_sub_mappings :
  forall (user_data1 user_data2 : loc) (w1 w2 : world) (d1 d2 : Dict.t),
    deref w1 user_data1 = PDict d1 ->
    deref w2 user_data2 = PDict d2 ->
    (forall key, In key ["activity"; "timing"; "interactions"] ->
                 Dict.get d1 key = Dict.get d2 key) ->
    fst (verify_referral user_data1 w1) = fst (verify_referral user_data2 w2).
Proof.
  intros user_data1 user_data2 w1 w2 d1 d2 H1 H2 Hagree.
  rewrite (verify_referral_record _ _ _ H1), (verify_referral_record _ _ _ H2).
  cbn [fst]. do 2 f_equal.
  unfold prompt_failure, first_unserializable, sub_mapping.
  rewrite !Hagree by (cbn; tauto). reflexivity.
Qed.

Lemma outcome_depends_only_on_the_three_sub_mappings_witness :
  fst (verify_referral 0%nat (stub_world full_record stub_body))
  = fst (verify_referral 0%nat (unreachable_world padded_record)).
Proof.
  apply (outcome_depends_only_on_the_three_sub_mappings
           0%nat 0%nat (stub_world full_record stub_body)
           (unreachable_world padded_record) _ _ eq_refl eq_refl).
  intros key [<- | [<- | [<- | []]]]; reflexivity.
Defined.

(** X4. A [user_data] that is no mapping, [None], a boolean, a number, a
    text or a list, ends in the generic error for the missing [get]
    attribute of its type, raised by the first field of the prompt. *)
Theorem non_mapping_input_is_an_attribute_error :
  forall (user_data : loc) (w : world),
    lacks_get (deref w user_data) = true ->
    verify_referral user_data w
    = (Raise (Exception
                ("Failed to verify referral: '"
                   ++ type_name_of (deref w user_data)
                   ++ "' object has no attribute 'get'")),
       w).
Proof.
  intros user_data w H.
  apply (verify_referral_of_prompt_failure user_data w w
           (AttributeError ("'" ++ type_name_of (deref w user_data)
                                ++ "' object has no attribute 'get'"))).
  unfold build_prompt, prompt_parts.
  rewrite eval_lit, eval_field.
  assert (He : FString.eval_expr user_data (FString.DumpsGet "activity") w
               = (Raise (AttributeError
                           ("'" ++ type_name_of (deref w user_data)
                                ++ "' object has no attribute 'get'")), w)).
  { unfold FString.eval_expr, py_get, bind, load.
    destruct (deref w user_data); try discriminate; reflexivity. }
  now rewrite He.
Qed.

Lemma non_mapping_input_is_an_attribute_error_witness :
  verify_referral 0%nat (stub_world (PList [PInt 1]) stub_body)
  = (Raise (Exception
              "Failed to verify referral: 'list' object has no attribute 'get'"),
     stub_world (PList [PInt 1]) stub_body).
Proof.
  exact (non_mapping_input_is_an_attribute_error
           0%nat (stub_world (PList [PInt 1]) stub_body) eq_refl).
Defined.

(** ** Replies that are not an object with text *)

(** X5. A reply that is valid JSON but not an object, a list, a number, a
    text, a boolean or null, is an error as well: line 59 cannot assign an
    item to it, and lines 44 to 62 under the handler raise the generic
    error for that [TypeError] instead of returning the value. *)
Theorem non_object_reply_is_an_error :
  forall (prompt : string) (w : world) (c : completion)
         (body : option string) (rest : list (option string)) (v : pyval),
    outcome (remote w (the_request prompt)) = Ok c ->
    choices c = body :: rest ->
    Loads.loads_content body = Ok v ->
    is_dict v = false ->
    exc_class (not_assignable v) = "TypeError"
    /\ fst (guarded_request_and_parse prompt w)
       = Raise (Exception
                  ("Failed to verify referral: "
                     ++ exc_str (not_assignable v)))
    /\ sent (snd (guarded_request_and_parse prompt w))
       = (sent w ++ [the_request prompt])%list.
Proof.
  intros prompt w c body rest v Ho Hc Hl Hv.
  split; [destruct v; reflexivity |].
  split; [| apply guarded_sent].
  unfold guarded_request_and_parse, try_except.
  rewrite request_and_parse_cases. cbv zeta. rewrite Ho, Hc, Hl.
  destruct v; try discriminate; reflexivity.
Qed.

Lemma non_object_reply_is_an_error_witness :
  Loads.loads "[1, 2]" = Ok (PList [PInt 1; PInt 2])
  /\ fst (guarded_request_and_parse "prompt" (stub_world empty_record "[1, 2]"))
     = Raise (Exception
                "Failed to verify referral: list indices must be integers or slices, not str").
Proof.
  assert (Hl : Loads.loads "[1, 2]" = Ok (PList [PInt 1; PInt 2]))
    by (vm_compute; reflexivity).
  split; [exact Hl |].
  destruct (non_object_reply_is_an_error
              "prompt" (stub_world empty_record "[1, 2]")
              (mkCompletion [Some "[1, 2]"]) (Some "[1, 2]") []
              (PList [PInt 1; PInt 2]) eq_refl eq_refl Hl eq_refl)
    as (_ & H & _).
  exact H.
Defined.

(** X6. A reply with no choice, or whose first choice carries no text, is
    an error: the generic exception wraps the [IndexError] of
    [choices[0]], or the [TypeError] of [json.loads] on [None]; the
    request has gone out and no object has been created. *)
Theorem reply_without_text_is_an_error :
  forall (prompt : string) (w : world) (c : completion),
    outcome (remote w (the_request prompt)) = Ok c ->
    (choices c = [] ->
     guarded_request_and_parse prompt w
     = (Raise (Exception "Failed to verify referral: list index out of range"),
        received prompt w))
    /\ (forall rest,
          choices c = None :: rest ->
          guarded_request_and_parse prompt w
          = (Raise (Exception
                      "Failed to verify referral: the JSON object must be str, bytes or bytearray, not NoneType"),
             received prompt w))
    /\ heap (received prompt w) = heap w
    /\ sent (received prompt w) = (sent w ++ [the_request prompt])%list.
Proof.
  intros prompt w c Ho.
  split; [| split; [| split; reflexivity]].
  - intros Hc. unfold guarded_request_and_parse, try_except.
    rewrite request_and_parse_cases. cbv zeta. now rewrite Ho, Hc.
  - intros rest Hc. unfold guarded_request_and_parse, try_except.
    rewrite request_and_parse_cases. cbv zeta. now rewrite Ho, Hc.
Qed.

Lemma reply_without_text_is_an_error_witness :
  fst (guarded_request_and_parse "prompt" choiceless_world)
  = Raise (Exception "Failed to verify referral: list index out of range")
  /\ fst (guarded_request_and_parse "prompt" textless_world)
     = Raise (Exception
                "Failed to verify referral: the JSON object must be str, bytes or bytearray, not NoneType").
Proof.
  split.
  - destruct (reply_without_text_is_an_error
                "prompt" choiceless_world (mkCompletion []) eq_refl)
      as (H & _).
    now rewrite (H eq_refl).
  - destruct (reply_without_text_is_an_error
                "prompt" textless_world (mkCompletion [None]) eq_refl)
      as (_ & H & _).
    now rewrite (H [] eq_refl).
Defined.

(** ** The keys of the mapping returned *)

Module KeyFacts.

Lemma keys_set (d : Dict.t) (k : string) (v : pyval) :
  Dict.keys (Dict.set d k v)
  = if existsb (String.eqb k) (Dict.keys d)
    then Dict.keys d
    else (Dict.keys d ++ [k])%list.
Proof.
  unfold Dict.keys.
  induction d as [| [k0 v0] rest IH]; [reflexivity |].
  cbn [Dict.set map fst existsb].
  destruct (String.eqb k k0); cbn [orb map fst]; [reflexivity |].
  rewrite IH. now destruct (existsb (String.eqb k) (map fst rest)).
Qed.

Lemma existsb_in (k : string) (l : list string) :
  existsb (String.eqb k) l = true <-> In k l.
Proof.
  rewrite existsb_exists. split.
  - intros (x & Hx & He). apply String.eqb_eq in He. now subst.
  - intros H. exists k. split; [exact H | apply String.eqb_refl].
Qed.

Lemma nodup_snoc (l : list string) (k : string) :
  NoDup l -> ~ In k l -> NoDup (l ++ [k])%list.
Proof.
  induction 1 as [| x l Hx Hl IH]; cbn; intros Hk.
  - constructor; [tauto | constructor].
  - constructor.
    + intros Hin. apply in_app_or in Hin. cbn in Hin.
      destruct Hin as [Hin | [-> | []]]; tauto.
    + apply IH. tauto.
Qed.

(** An assignment keeps the keys free of duplicates. *)
Lemma nodup_set (d : Dict.t) (k : string) (v : pyval) :
  NoDup (Dict.keys d) -> NoDup (Dict.keys (Dict.set d k v)).
Proof.
  intros H. rewrite keys_set.
  destruct (existsb (String.eqb k) (Dict.keys d)) eqn:E; [exact H |].
  apply nodup_snoc; [exact H |].
  intros Hin. apply existsb_in in Hin. congruence.
Qed.

Lemma keys_stamped (d : Dict.t) (now : Q) :
  Dict.keys (stamped d now) = (Dict.keys d ++ missing_metadata d)%list.
Proof.
  unfold stamped, missing_metadata. rewrite !keys_set.
  cbn [filter].
  destruct (existsb (String.eqb "timestamp") (Dict.keys d)) eqn:Et;
    cbn [negb].
  - destruct (existsb (String.eqb "model_version") (Dict.keys d));
      cbn [negb]; [now rewrite app_nil_r | reflexivity].
  - rewrite existsb_app. cbn [existsb].
    assert (Hne : String.eqb "model_version" "timestamp" = false)
      by reflexivity.
    rewrite Hne, !orb_false_r.
    destruct (existsb (String.eqb "model_version") (Dict.keys d));
      cbn [negb]; [reflexivity | now rewrite <- app_assoc].
Qed.

End KeyFacts.

(** X7. The mapping returned has the keys of the reply's object, in the
    reply's order, followed by those of [timestamp] and [model_version]
    (in that order) the reply did not have; no key is dropped, and if the
    reply's keys were free of duplicates so are the result's. *)
Theorem result_keys_follow_the_reply :
  forall (prompt : string) (w w' : world) (r : loc),
    request_and_parse prompt w = (Return r, w') ->
    exists c body rest d d',
      outcome (remote w (the_request prompt)) = Ok c
      /\ choices c = body :: rest
      /\ Loads.loads_content body = Ok (PDict d)
      /\ deref w' r = PDict d'
      /\ Dict.keys d' = (Dict.keys d ++ missing_metadata d)%list
      /\ (NoDup (Dict.keys d) -> NoDup (Dict.keys d')).
Proof.
  intros prompt w w' r H.
  destruct (request_and_parse_returned _ _ _ _ H)
    as (c & body & rest & d & Ho & Hc & Hl & -> & ->).
  exists c, body, rest, d, (stamped d (clock (received prompt w))).
  repeat split; auto.
  - exact (deref_new_object (received prompt w) _).
  - apply KeyFacts.keys_stamped.
  - intros Hn. unfold stamped. now do 2 apply KeyFacts.nodup_set.
Qed.

Lemma result_keys_follow_the_reply_witness :
  let w := stub_world empty_record half_stamped_body in
  request_and_parse "prompt" w
  = (Return 1%nat, snd (request_and_parse "prompt" w))
  /\ exists d',
       deref (snd (request_and_parse "prompt" w)) 1%nat = PDict d'
       /\ Dict.keys d' = ["model_version"; "verified"; "timestamp"].
Proof.
  cbv zeta.
  assert (H : request_and_parse "prompt"
                (stub_world empty_record half_stamped_body)
              = (Return 1%nat,
                 snd (request_and_parse "prompt"
                        (stub_world empty_record half_stamped_body))))
    by (vm_compute; reflexivity).
  split; [exact H |].
  destruct (result_keys_follow_the_reply _ _ _ _ H)
    as (c & body & rest & d & d' & Ho & Hc & Hl & Hd & Hk & _).
  exists d'. split; [exact Hd |].
  rewrite Hk.
  injection Ho as <-. injection Hc as <- _.
  assert (Hp : Loads.loads_content (Some half_stamped_body)
               = Ok (PDict [("model_version", PInt 1);
                            ("verified", PBool false)]))
    by (vm_compute; reflexivity).
  assert (He : Ok (PDict d)
               = Ok (PDict [("model_version", PInt 1);
                            ("verified", PBool false)]))
    by exact (eq_trans (eq_sym Hl) Hp).
  injection He as ->. reflexivity.
Defined.

(** ** Calls one after another *)

(** X8. Two runs of lines 44 to 62, one after the other, issue their two
    requests in order and return two different objects, neither of which
    existed before; the second run leaves the mapping the first one
    returned as it was. *)
Theorem successive_results_are_separate_objects :
  forall (prompt1 prompt2 : string) (w w1 w2 : world) (r1 r2 : loc),
    request_and_parse prompt1 w = (Return r1, w1) ->
    request_and_parse prompt2 w1 = (Return r2, w2) ->
    r1 <> r2
    /\ (List.length (heap w) <= r1)%nat
    /\ (List.length (heap w1) <= r2)%nat
    /\ deref w2 r1 = deref w1 r1
    /\ sent w2 = (sent w ++ [the_request prompt1; the_request prompt2])%list.
Proof.
  intros prompt1 prompt2 w w1 w2 r1 r2 H1 H2.
  destruct (request_and_parse_returned _ _ _ _ H1)
    as (c1 & b1 & t1 & d1 & _ & _ & _ & -> & ->).
  destruct (request_and_parse_returned _ _ _ _ H2)
    as (c2 & b2 & t2 & d2 & _ & _ & _ & -> & ->).
  unfold with_object, received, deref. cbn [heap clock sent remote].
  rewrite length_app. cbn [List.length].
  split; [lia |]. split; [lia |]. split; [lia |]. split.
  - rewrite app_nth1 by (rewrite length_app; cbn; lia). reflexivity.
  - now rewrite <- app_assoc.
Qed.

Lemma successive_results_are_separate_objects_witness :
  let w := stub_world empty_record stub_body in
  let w1 := snd (request_and_parse "first" w) in
  let w2 := snd (request_and_parse "second" w1) in
  request_and_parse "first" w = (Return 1%nat, w1)
  /\ request_and_parse "second" w1 = (Return 2%nat, w2)
  /\ deref w2 1%nat = deref w1 1%nat
  /\ sent w2 = [the_request "first"; the_request "second"].
Proof.
  cbv zeta.
  set (w := stub_world empty_record stub_body).
  assert (H1 : request_and_parse "first" w
               = (Return 1%nat, snd (request_and_parse "first" w)))
    by (vm_compute; reflexivity).
  assert (H2 : request_and_parse "second" (snd (request_and_parse "first" w))
               = (Return 2%nat,
                  snd (request_and_parse "second"
                         (snd (request_and_parse "first" w)))))
    by (vm_compute; reflexivity).
  split; [exact H1 |]. split; [exact H2 |].
  destruct (successive_results_are_separate_objects _ _ _ _ _ _ _ H1 H2)
    as (_ & _ & _ & Hd & Hs).
  split; [exact Hd | exact Hs].
Defined.

(** ** The two outcomes *)

(** X10. Lines 44 to 62 under the handler end in one of two ways, whatever
    the service does: they return a mapping that has [timestamp] and
    [model_version], or they raise an [Exception] whose message starts
    with "Failed to verify referral: ".  No other value is returned and no
    other class of error gets out. *)
Theorem mapping_or_generic_error :
  forall (prompt : string) (w : world),
    (exists r d,
       fst (guarded_request_and_parse prompt w) = Return r
       /\ deref (snd (guarded_request_and_parse prompt w)) r = PDict d
       /\ In "timestamp" (Dict.keys d)
       /\ In "model_version" (Dict.keys d))
    \/ (exists cause,
          fst (guarded_request_and_parse prompt w)
          = Raise (Exception ("Failed to verify referral: " ++ exc_str cause))).
Proof.
  intros prompt w.
  destruct (request_and_parse prompt w) as [[r | cause] w'] eqn:H.
  - left.
    destruct (request_and_parse_returned _ _ _ _ H)
      as (c & body & rest & d & _ & _ & _ & -> & ->).
    exists (List.length (heap w)), (stamped d (clock (received prompt w))).
    unfold guarded_request_and_parse, try_except. rewrite H. cbn [fst snd].
    split; [reflexivity |].
    split; [exact (deref_new_object (received prompt w) _) |].
    rewrite KeyFacts.keys_stamped. unfold missing_metadata. cbn [filter].
    split; apply in_or_app.
    + destruct (existsb (String.eqb "timestamp") (Dict.keys d)) eqn:E;
        [left; now apply KeyFacts.existsb_in | right; cbn; auto].
    + destruct (existsb (String.eqb "model_version") (Dict.keys d)) eqn:E;
        [left; now apply KeyFacts.existsb_in |].
      right. cbn [negb].
      destruct (negb (existsb (String.eqb "timestamp") (Dict.keys d)));
        cbn; auto.
  - right. exists cause.
    unfold guarded_request_and_parse, try_except. now rewrite H.
Qed.

(** * Requests and local state *)

Section ReadsOnlyInput.

Variable user_data : loc.




End ReadsOnlyInput.



